(** * Advanced Antenna S-Parameter Analyzer ([app.py])

    A shallow embedding of the data handling of [app.py]: the CSV section
    (column split, dB scaling, chart call, synthetic [.s2p] writer), the
    Touchstone section (window resolution with [np.argmin], per-selector
    magnitude extraction, dB scaling) and the control flow that joins them.

    Numbers are IEEE binary64 values, as numpy's [float64]: Rocq's primitive
    [float].  The collaborators that the script only calls ([np.log10], the
    complex modulus behind [np.abs], [rf.Network]) are parameters of the
    sections that use them. *)

From Stdlib Require Import ZArith List String Ascii Bool Lia.
From Stdlib Require Import Floats DecimalString.
Import ListNotations.

Local Open Scope string_scope.

(** A decimal literal denotes the nearest binary64 value, as in Python. *)
Set Warnings "-inexact-float".

(** ** Python exceptions and results *)

Module Py.

(** The exceptions the modelled statements can raise.  [ExternalError]
    stands for whatever [rf.Network] raises on a file it rejects. *)
Inductive exn : Type :=
| IndexError
| ValueError
| KeyError
| ExternalError.

Inductive result (A : Type) : Type :=
| Ok (a : A)
| Raise (e : exn).

Arguments Ok {A} a.
Arguments Raise {A} e.

Definition bind {A B : Type} (r : result A) (k : A -> result B) : result B :=
  match r with
  | Ok a => k a
  | Raise e => Raise e
  end.

(** [xs[i]] for a non-negative index. *)
Definition getitem {A : Type} (xs : list A) (i : nat) : result A :=
  match nth_error xs i with
  | Some a => Ok a
  | None => Raise IndexError
  end.

(** [xs[-1]]. *)
Definition getlast {A : Type} (xs : list A) : result A :=
  getitem (rev xs) 0.

(** [xs[lo:hi]] for non-negative bounds: never raises. *)
Definition slice {A : Type} (lo hi : nat) (xs : list A) : list A :=
  firstn (hi - lo) (skipn lo xs).

(** Sequencing a fallible function over a list, left to right, stopping at
    the first exception (a [for] loop that appends one result per item). *)
Fixpoint mapM {A B : Type} (f : A -> result B) (xs : list A) : result (list B) :=
  match xs with
  | [] => Ok []
  | x :: rest =>
      bind (f x) (fun y => bind (mapM f rest) (fun ys => Ok (y :: ys)))
  end.

End Py.

Import Py.

Notation "x <- c ;; k" := (Py.bind c (fun x => k))
  (at level 61, c at next level, right associativity).

(** ** Text: the pieces of [str] the script uses *)

Module Text.

Definition is_space (c : ascii) : bool :=
  match c with
  | " "%char | "009"%char | "010"%char | "011"%char | "012"%char | "013"%char => true
  | _ => false
  end.

Definition is_digit (c : ascii) : bool :=
  let n := N_of_ascii c in (48 <=? n)%N && (n <=? 57)%N.

Fixpoint all_chars (p : ascii -> bool) (s : string) : bool :=
  match s with
  | EmptyString => true
  | String c rest => p c && all_chars p rest
  end.

Definition nonempty (s : string) : bool :=
  match s with EmptyString => false | _ => true end.

(** The newline character, and the characters a field / a line is made of. *)
Definition nl : ascii := "010"%char.
Definition field_char (c : ascii) : bool := negb (is_space c).
Definition line_char (c : ascii) : bool := negb (Ascii.eqb c nl).

(** [s.split()]: the maximal runs of non-whitespace characters.  [cur] is
    the run being read. *)
Fixpoint split_from (cur : string) (s : string) : list string :=
  match s with
  | EmptyString => if nonempty cur then [cur] else []
  | String c rest =>
      if is_space c
      then (if nonempty cur then cur :: split_from "" rest else split_from "" rest)
      else split_from (cur ++ String c "") rest
  end.

Definition split (s : string) : list string := split_from "" s.

(** The lines of a text whose lines all end in a newline, without their
    newline (what iterating over the file and stripping gives). *)
Fixpoint lines_from (cur : string) (s : string) : list string :=
  match s with
  | EmptyString => if nonempty cur then [cur] else []
  | String c rest =>
      if Ascii.eqb c "010"%char
      then cur :: lines_from "" rest
      else lines_from (cur ++ String c "") rest
  end.

Definition lines (s : string) : list string := lines_from "" s.

(** A text from its lines, each followed by a newline. *)
Definition unlines (ls : list string) : string :=
  fold_right (fun l acc => l ++ String nl acc) "" ls.

(** [str.lower] on ASCII letters. *)
Definition lower_char (c : ascii) : ascii :=
  let n := N_of_ascii c in
  if (65 <=? n)%N && (n <=? 90)%N then ascii_of_N (n + 32) else c.

Fixpoint lower (s : string) : string :=
  match s with
  | EmptyString => EmptyString
  | String c rest => String (lower_char c) (lower rest)
  end.

(** [s.endswith(suffix)]. *)
Definition endswith (s suffix : string) : bool :=
  let n := String.length s in
  let k := String.length suffix in
  (k <=? n)%nat && String.eqb (substring (n - k) k s) suffix.

End Text.

(** ** Fixed-point formatting: [format(x, ".6f")] *)

Module Fmt.

Definition digit_char (d : Z) : ascii := ascii_of_N (48 + Z.to_N d).

(** Decimal numeral of a natural number, at least one digit. *)
Definition decimal (n : N) : string := NilZero.string_of_uint (N.to_uint n).

(** The six digits of [n mod 10^6], most significant first. *)
Definition six_digits (n : Z) : string :=
  fold_right (fun p acc => String (digit_char ((n / p) mod 10)) acc) ""
             [100000; 10000; 1000; 100; 10; 1]%Z.

(** Nearest integer to [num / den] ([den > 0]), ties to even. *)
Definition div_half_even (num den : Z) : Z :=
  let q := (num / den)%Z in
  let r := (num mod den)%Z in
  match (2 * r ?= den)%Z with
  | Lt => q
  | Gt => (q + 1)%Z
  | Eq => if Z.even q then q else (q + 1)%Z
  end.

(** [|x| * 10^6] rounded to the nearest integer, ties to even, for the
    finite value [m * 2^e]. *)
Definition scaled_micro (m : positive) (e : Z) : Z :=
  if (0 <=? e)%Z
  then (Z.pos m * 2 ^ e * 1000000)%Z
  else div_half_even (Z.pos m * 1000000) (2 ^ (- e)).

Definition fixed6 (negative : bool) (n : Z) : string :=
  (if negative then "-" else "") ++
  decimal (Z.to_N (n / 1000000)) ++ "." ++ six_digits n.

(** [f"{x:.6f}"]: the correctly rounded decimal expansion of [x] with six
    fractional digits; the sign of a negative value is kept when it rounds
    to zero; non-finite values print as [nan], [inf], [-inf]. *)
Definition format_6f (x : float) : string :=
  match Prim2SF x with
  | S754_nan => "nan"
  | S754_infinity s => if s then "-inf" else "inf"
  | S754_zero s => fixed6 s 0
  | S754_finite s m e => fixed6 s (scaled_micro m e)
  end.

(** The shape [-?digits.dddddd]. *)
Fixpoint after_point (s : string) : option string :=
  match s with
  | EmptyString => None
  | String c rest => if Ascii.eqb c "."%char then Some rest else after_point rest
  end.

Fixpoint before_point (s : string) : string :=
  match s with
  | EmptyString => EmptyString
  | String c rest => if Ascii.eqb c "."%char then EmptyString else String c (before_point rest)
  end.

Definition unsigned_part (s : string) : string :=
  match s with
  | String "-"%char rest => rest
  | _ => s
  end.

Definition has_six_decimals (s : string) : bool :=
  let u := unsigned_part s in
  Text.nonempty (before_point u) && Text.all_chars Text.is_digit (before_point u) &&
  match after_point u with
  | Some frac => (String.length frac =? 6)%nat && Text.all_chars Text.is_digit frac
  | None => false
  end.

Definition is_special (s : string) : bool :=
  String.eqb s "nan" || String.eqb s "inf" || String.eqb s "-inf".

End Fmt.

(** ** Shared data: scale mode, complex samples, chart traces *)

Local Open Scope float_scope.

(** The radio button: [scale_option]. *)
Inductive scale : Type :=
| Linear
| dB.

(** A [complex128] sample: real and imaginary part. *)
Definition complex : Type := (float * float)%type.

(** numpy's product of two [complex128] values. *)
Definition cmul (a b : complex) : complex :=
  (fst a * fst b - snd a * snd b, fst a * snd b + snd a * fst b).

(** One line of a chart: legend name, x values, y values. *)
Record trace : Type := mkTrace {
  trace_name : string;
  trace_x : list float;
  trace_y : list float
}.

(** What is handed to [st.plotly_chart]. *)
Record figure : Type := mkFigure {
  fig_traces : list trace;
  fig_xaxis_title : string;
  fig_yaxis_title : string
}.

(** ** The parsed CSV: a pandas [DataFrame] of numeric columns *)

Module Frame.

(** [columns] are the header labels; [values] is [df.values], row-major. *)
Record DataFrame : Type := mkFrame {
  columns : list string;
  values : list (list float)
}.

(** Every row has one cell per column. *)
Definition wf (df : DataFrame) : Prop :=
  Forall (fun row => List.length row = List.length (columns df)) (values df).

Fixpoint index_of (label : string) (labels : list string) : option nat :=
  match labels with
  | [] => None
  | l :: rest =>
      if String.eqb l label then Some 0%nat
      else option_map S (index_of label rest)
  end.

(** [df[label].values]. *)
Definition column (df : DataFrame) (label : string) : result (list float) :=
  match index_of label (columns df) with
  | Some c => Ok (map (fun row => nth c row 0) (values df))
  | None => Raise KeyError
  end.

(** [df[labels]], column by column. *)
Definition select (df : DataFrame) (labels : list string) : result (list (list float)) :=
  mapM (column df) labels.

(** [df.iloc[:,0].values]. *)
Definition iloc_first (df : DataFrame) : result (list float) :=
  match columns df with
  | [] => Raise IndexError
  | _ :: _ => Ok (map (fun row => nth 0 row 0) (values df))
  end.

(** [df.iloc[:,1:].values]. *)
Definition iloc_rest (df : DataFrame) : list (list float) :=
  map (skipn 1) (values df).

End Frame.

Import Frame.

(** ** The CSV section (lines 24-78) *)

Module Csv.

(** Lines 26-27: [x_col = df.columns[0]], [y_cols = df.columns[1:]]. *)
Definition interpret (df : DataFrame) : result (string * list string) :=
  x_col <- getitem (columns df) 0 ;;
  Ok (x_col, skipn 1 (columns df)).

(** [px.line(df, x=x_col, y=selected_params)]: one trace per selected
    label, read from [df]. *)
Definition px_line (df : DataFrame) (x_col : string) (selected : list string)
  : result (list trace) :=
  x <- column df x_col ;;
  mapM (fun p => y <- column df p ;; Ok (mkTrace p x y)) selected.

Section Chart.

Variable np_log10 : float -> float.

(** Lines 42-57.  [None]: nothing selected, no chart.  [plot_df] is
    computed as in the source and, as in the source, the chart is then
    built from [df]. *)
Definition chart (df : DataFrame) (x_col : string) (scale_option : scale)
           (selected_params : list string) : result (option figure) :=
  match selected_params with
  | [] => Ok None
  | _ :: _ =>
      plot_df <- select df selected_params ;;
      let plot_df :=
        match scale_option with
        | dB => map (map (fun v => 20 * np_log10 v)) plot_df
        | Linear => plot_df
        end in
      fig <- px_line df x_col selected_params ;;
      Ok (Some (mkFigure fig x_col
                  (match scale_option with
                   | dB => "|S| (dB)"
                   | Linear => "|S| (linear)"
                   end)))
  end.

End Chart.

(** The traces a chart step hands to the renderer: none when it draws
    nothing. *)
Definition plotted (r : result (option figure)) : result (list trace) :=
  match r with
  | Ok (Some g) => Ok (fig_traces g)
  | Ok None => Ok []
  | Raise e => Raise e
  end.

(** *** The synthetic [.s2p] writer (lines 61-76) *)

Definition header : string := "# GHz S RI R 50" ++ String Text.nl "".

(** Every entry of [np.exp(1j*np.deg2rad(phases))], [phases] being all
    zeros: [exp(0j) = 1+0j]. *)
Definition unit_phasor : complex := (1, 0).

(** [mags * np.exp(1j*np.deg2rad(phases))]: each magnitude, promoted to
    [m+0j], times [1+0j]. *)
Definition s_complex (df : DataFrame) : list (list complex) :=
  map (map (fun m => cmul (m, 0) unit_phasor)) (iloc_rest df).

(** [arr[i,c]] on a two-dimensional array. *)
Definition getitem2 {A : Type} (arr : list (list A)) (i c : nat) : result A :=
  row <- getitem arr i ;;
  getitem row c.

(** The f-string of lines 73-76 up to its final newline. *)
Definition row_line (fz : float) (s11 s21 : complex) : string :=
  Fmt.format_6f (fz / 1e9) ++ " " ++
  Fmt.format_6f (fst s11) ++ " " ++ Fmt.format_6f (snd s11) ++ " " ++
  Fmt.format_6f (fst s21) ++ " " ++ Fmt.format_6f (snd s21) ++ " " ++
  "0 0 0 0".

(** The text written for row [i] (lines 73-76); the f-string evaluates
    its fields left to right. *)
Definition row_text (freq_hz : list float) (sc : list (list complex)) (i : nat)
  : result string :=
  fz <- getitem freq_hz i ;;
  s11 <- getitem2 sc i 0 ;;
  s21 <- getitem2 sc i 1 ;;
  Ok (row_line fz s11 s21 ++ String Text.nl "").

(** The [for i in range(len(freq_hz))] loop over an open file: the text
    written so far, and how the loop ended. *)
Fixpoint write_rows (freq_hz : list float) (sc : list (list complex))
         (indices : list nat) (written : string) : string * result unit :=
  match indices with
  | [] => (written, Ok tt)
  | i :: rest =>
      match row_text freq_hz sc i with
      | Ok t => write_rows freq_hz sc rest (written ++ t)
      | Raise e => (written, Raise e)
      end
  end.

(** Lines 62-76: the content of the temporary file when the block ends
    (the empty text if it ends before the file is opened), and whether it
    ended by an exception. *)
Definition synthesize (df : DataFrame) : string * result unit :=
  match iloc_first df with
  | Raise e => ("", Raise e)
  | Ok col0 =>
      let freq_hz := map (fun x => x * 1e9) col0 in
      write_rows freq_hz (s_complex df) (seq 0 (List.length freq_hz)) header
  end.

(** The line a row of cells ends up as: its first three cells, scaled
    and multiplied as above. *)
Definition line_of_cells (cells : list float) : string :=
  row_line (nth 0 cells 0 * 1e9)
           (cmul (nth 1 cells 0, 0) unit_phasor)
           (cmul (nth 2 cells 0, 0) unit_phasor).

(** Row [i] of [freq_hz] and of [s_complex], from the cells of row [i]. *)
Definition freq_of (cells : list float) : float := nth 0 cells 0 * 1e9.
Definition samples_of (cells : list float) : list complex :=
  map (fun m => cmul (m, 0) unit_phasor) (skipn 1 cells).

(** The five numbers printed for a row of cells, in the order written. *)
Definition printed_values (cells : list float) : list float :=
  let s11 := cmul (nth 1 cells 0, 0) unit_phasor in
  let s21 := cmul (nth 2 cells 0, 0) unit_phasor in
  [nth 0 cells 0 * 1e9 / 1e9; fst s11; snd s11; fst s21; snd s21].

(** The frame cut down to its first [k] columns. *)
Definition first_columns (k : nat) (df : DataFrame) : DataFrame :=
  mkFrame (firstn k (columns df)) (map (firstn k) (values df)).

End Csv.

(** ** The Touchstone section (lines 83-132) *)

Module Net.

(** What the script reads of an [rf.Network]: [net.f] (Hz), [net.nports]
    and [net.s], an array of shape [(len(f), nports, nports)]. *)
Record Network : Type := mkNetwork {
  net_f : list float;
  net_nports : nat;
  net_s : list (list (list complex))
}.

(** The shape invariant of [net.s]. *)
Definition wf (net : Network) : Prop :=
  List.length (net_s net) = List.length (net_f net) /\
  Forall (fun m => List.length m = net_nports net /\
                   Forall (fun r => List.length r = net_nports net) m)
         (net_s net).

(** [np.argmin] on a one-dimensional [float64] array: the running minimum
    [mp] at index [best] is replaced by [x] when [not (x >= mp)]; a NaN
    ends the scan. *)
Fixpoint argmin_from (mp : float) (best i : nat) (xs : list float) : nat :=
  match xs with
  | [] => best
  | x :: rest =>
      if negb (mp <=? x)
      then (if is_nan x then i else argmin_from x i (S i) rest)
      else argmin_from mp best (S i) rest
  end.

Definition argmin (xs : list float) : result nat :=
  match xs with
  | [] => Raise ValueError
  | x :: rest => Ok (if is_nan x then 0%nat else argmin_from x 0 1 rest)
  end.

(** [np.abs(net.f/1e9 - freq)]. *)
Definition distances (net : Network) (freq : float) : list float :=
  map (fun x => abs (x / 1e9 - freq)) (net_f net).

(** Lines 96-97. *)
Definition resolve_window (net : Network) (freq_min freq_max : float)
  : result (nat * nat) :=
  idx_min <- argmin (distances net freq_min) ;;
  k <- argmin (distances net freq_max) ;;
  Ok (idx_min, (k + 1)%nat).

(** Line 100: the labels offered by the multiselect. *)
Definition options (n_ports : nat) : list string :=
  flat_map (fun i =>
    map (fun j => "S" ++ Fmt.decimal (N.of_nat (i + 1)) ++ Fmt.decimal (N.of_nat (j + 1)))
        (seq 0 n_ports))
    (seq 0 n_ports).

(** [param[k]] on a [str]. *)
Definition char_at (param : string) (k : nat) : result ascii :=
  match String.get k param with
  | Some c => Ok c
  | None => Raise IndexError
  end.

(** The value of a digit character. *)
Definition digit_value (c : ascii) : Z := (Z.of_N (N_of_ascii c) - 48)%Z.

(** [int(c)] for a one-character string. *)
Definition int_of_char (c : ascii) : result Z :=
  if Text.is_digit c then Ok (digit_value c) else Raise ValueError.

(** An integer index on an axis of length [n]: negative indices count from
    the end, anything outside [-n, n) raises. *)
Definition axis_index (n : nat) (k : Z) : result nat :=
  if ((0 <=? k) && (k <? Z.of_nat n))%Z then Ok (Z.to_nat k)
  else if ((- Z.of_nat n <=? k) && (k <? 0))%Z then Ok (Z.to_nat (k + Z.of_nat n))
  else Raise IndexError.

Section Extract.

Variable np_log10 : float -> float.
(** The modulus of a complex sample, [np.abs] on [complex128]. *)
Variable np_cabs : complex -> float.

(** Line 115: [np.abs(net.s[idx_min:idx_max,i,j])]. *)
Definition magnitudes (net : Network) (idx_min idx_max : nat) (i j : Z)
  : result (list float) :=
  i' <- axis_index (net_nports net) i ;;
  j' <- axis_index (net_nports net) j ;;
  Ok (map (fun m => np_cabs (nth j' (nth i' m []) (0, 0)))
          (slice idx_min idx_max (net_s net))).

(** The body of the loop over [selected_params] (lines 113-123). *)
Definition extract_one (net : Network) (idx_min idx_max : nat)
           (scale_option : scale) (param : string) : result trace :=
  c1 <- char_at param 1 ;;
  d1 <- int_of_char c1 ;;
  let i := (d1 - 1)%Z in
  c2 <- char_at param 2 ;;
  d2 <- int_of_char c2 ;;
  let j := (d2 - 1)%Z in
  y <- magnitudes net idx_min idx_max i j ;;
  let y :=
    match scale_option with
    | dB => map (fun v => 20 * np_log10 v) y
    | Linear => y
    end in
  Ok (mkTrace param
        (map (fun x => x / 1e9) (slice idx_min idx_max (net_f net)))
        y).

(** Lines 96-123 for given widget values: the traces added to the
    figure, in the order of [selected_params]. *)
Definition extract (net : Network) (freq_min freq_max : float)
           (selected_params : list string) (scale_option : scale)
  : result (list trace) :=
  w <- resolve_window net freq_min freq_max ;;
  mapM (extract_one net (fst w) (snd w) scale_option) selected_params.

End Extract.

(** [p] is the lowest index at which [ds] is least. *)
Definition first_minimum (ds : list float) (p : nat) : Prop :=
  exists d, nth_error ds p = Some d /\
    (forall q x, nth_error ds q = Some x -> (d <=? x) = true) /\
    (forall q x, nth_error ds q = Some x -> (q < p)%nat -> (d <? x) = true).

(** A selector whose two port digits, the characters the loop reads, are
    both in [1, n_ports]. *)
Definition selector_in_range (n_ports : nat) (param : string) : bool :=
  match param with
  | String _ (String c1 (String c2 _)) =>
      Text.is_digit c1 && Text.is_digit c2 &&
      ((1 <=? digit_value c1) && (digit_value c1 <=? Z.of_nat n_ports))%Z &&
      ((1 <=? digit_value c2) && (digit_value c2 <=? Z.of_nat n_ports))%Z
  | _ => false
  end.

(** A trace named [param] over the slice [idx_min:idx_max]: its x values
    are the slice of [net.f] in GHz, and it has one y value per point. *)
Definition trace_for (net : Network) (idx_min idx_max : nat) (param : string)
           (t : trace) : Prop :=
  trace_name t = param /\
  trace_x t = map (fun x => x / 1e9) (slice idx_min idx_max (net_f net)) /\
  List.length (trace_x t) = (idx_max - idx_min)%nat /\
  List.length (trace_y t) = (idx_max - idx_min)%nat.

End Net.

Import Net.

(** ** The script: one render cycle (lines 18-132) *)

Module App.

(** What [rf.Network] is given: the upload itself, or the path of the
    temporary file the CSV section wrote. *)
Inductive source : Type :=
| Uploaded
| TempFile (content : string).

(** The upload: its name and what [pd.read_csv] makes of it. *)
Record Upload : Type := mkUpload {
  upload_name : string;
  upload_csv : result DataFrame
}.

(** The widget values of the cycle.  [None] is a widget left at its
    default. *)
Record Widgets : Type := mkWidgets {
  csv_scale : scale;
  csv_selection : option (list string);
  convert_checkbox : bool;
  freq_slider : option (float * float);
  touchstone_selection : option (list string);
  touchstone_scale : scale
}.

(** What a cycle does that can be observed. *)
Inductive event : Type :=
| CsvRead
| CsvChart (fig : figure)
| TempFileWritten (content : string)
| NetworkRead (src : source)
| NetworkChart (fig : figure)
| ErrorShown (e : exn).

(** A run: the events so far and either a value or the exception that
    ended it. *)
Definition script (A : Type) : Type := (list event * result A)%type.

Definition ret {A : Type} (a : A) : script A := ([], Ok a).
Definition emit (e : event) : script unit := ([e], Ok tt).
Definition lift {A : Type} (r : result A) : script A := ([], r).

Definition sbind {A B : Type} (m : script A) (k : A -> script B) : script B :=
  match m with
  | (evs, Ok a) => let (evs', r) := k a in ((evs ++ evs')%list, r)
  | (evs, Raise e) => (evs, Raise e)
  end.

(** [try: ... except Exception as e: st.error(...)]. *)
Definition try_except (m : script unit) : script unit :=
  match m with
  | (evs, Ok u) => (evs, Ok u)
  | (evs, Raise e) => ((evs ++ [ErrorShown e])%list, Ok tt)
  end.

Notation "x <~ c ;; k" := (sbind c (fun x => k))
  (at level 61, c at next level, right associativity).

Section Script.

Variable np_log10 : float -> float.
Variable np_cabs : complex -> float.
Variable rf_Network : source -> result Network.

(** Lines 24-78; the value is what [uploaded_file] is bound to at the
    end of the block. *)
Definition csv_section (u : Upload) (w : Widgets) : script source :=
  _ <~ emit CsvRead ;;
  df <~ lift (upload_csv u) ;;
  xy <~ lift (Csv.interpret df) ;;
  let x_col := fst xy in
  let y_cols := snd xy in
  let selected_params :=
    match csv_selection w with Some l => l | None => y_cols end in
  fig <~ lift (Csv.chart np_log10 df x_col (csv_scale w) selected_params) ;;
  _ <~ match fig with Some g => emit (CsvChart g) | None => ret tt end ;;
  if convert_checkbox w
  then
    let out := Csv.synthesize df in
    _ <~ ([TempFileWritten (fst out)], snd out) ;;
    ret (TempFile (fst out))
  else ret Uploaded.

(** Lines 83-132. *)
Definition touchstone_section (src : source) (w : Widgets) : script unit :=
  try_except (
    _ <~ emit (NetworkRead src) ;;
    net <~ lift (rf_Network src) ;;
    f_first <~ lift (getitem (net_f net) 0) ;;
    f_last <~ lift (getlast (net_f net)) ;;
    let window :=
      match freq_slider w with
      | Some v => v
      | None => (f_first / 1e9, f_last / 1e9)
      end in
    option0 <~ lift (getitem (Net.options (net_nports net)) 0) ;;
    let selected_params :=
      match touchstone_selection w with Some l => l | None => [option0] end in
    traces <~ lift (Net.extract np_log10 np_cabs net (fst window) (snd window)
                      selected_params (touchstone_scale w)) ;;
    match selected_params with
    | [] => ret tt
    | _ :: _ =>
        emit (NetworkChart
                (mkFigure traces "Frequency (GHz)"
                   (match touchstone_scale w with
                    | dB => "Magnitude |S| (dB)"
                    | Linear => "Magnitude |S| (Linear)"
                    end)))
    end).

(** Lines 18-132: the CSV block runs for a [.csv] name; the Touchstone
    block follows it unconditionally. *)
Definition app (uploaded_file : option Upload) (w : Widgets) : script unit :=
  match uploaded_file with
  | None => ret tt
  | Some u =>
      let filename := Text.lower (upload_name u) in
      src <~ (if Text.endswith filename ".csv"
              then csv_section u w
              else ret Uploaded) ;;
      touchstone_section src w
  end.

End Script.

Definition is_csv_event (e : event) : bool :=
  match e with
  | CsvRead | CsvChart _ | TempFileWritten _ => true
  | _ => false
  end.

Definition is_network_event (e : event) : bool :=
  match e with
  | NetworkRead _ | NetworkChart _ => true
  | _ => false
  end.

Definition ran_csv_path (r : script unit) : bool := existsb is_csv_event (fst r).
Definition ran_network_path (r : script unit) : bool := existsb is_network_event (fst r).

(** The figures handed to the renderer, in order. *)
Definition charts (r : script unit) : list figure :=
  flat_map (fun e => match e with
                     | CsvChart g | NetworkChart g => [g]
                     | _ => []
                     end) (fst r).

End App.

(** ** Concrete inputs *)

Module Samples.

(** Doubles for the collaborators, to run the script on concrete inputs:
    the textbook modulus, exact on the samples below, and a logarithm double
    whose values no statement below depends on (the runs stated with it plot
    in Linear scale, or end in an error). *)
Definition cabs_naive (z : complex) : float := sqrt (fst z * fst z + snd z * snd z).
Definition log10_double (x : float) : float := x.

(** The spec's scenario: [freq_ghz=[1,2,3]], [S11=[0.5,0.25,0.1]]. *)
Definition scenario_df : DataFrame :=
  mkFrame ["freq_ghz"; "S11"] [[1; 0.5]; [2; 0.25]; [3; 0.1]].

(** A three-column CSV and its single row. *)
Definition three_col_df : DataFrame :=
  mkFrame ["freq_ghz"; "S11"; "S21"] [[1; 0.5; 0.25]].

Definition real_matrix (a b c d : float) : list (list complex) :=
  [[(a, 0); (b, 0)]; [(c, 0); (d, 0)]].

(** A 2-port network with points at 1, 2 and 3 GHz. *)
Definition two_port : Network :=
  mkNetwork [1e9; 2e9; 3e9] 2
    [real_matrix 1 2 3 4; real_matrix 5 6 7 8; real_matrix 9 10 11 12].

(** A 1-port network with points at 1 and 1.5 GHz. *)
Definition two_points : Network :=
  mkNetwork [1e9; 1.5e9] 1 [[[(1, 0)]]; [[(2, 0)]]].

(** A parser double that rejects the raw CSV upload and returns the fixed
    network for a synthetic file. *)
Definition parse_synthetic_only (src : App.source) : result Network :=
  match src with
  | App.Uploaded => Raise ExternalError
  | App.TempFile _ => Ok two_port
  end.

(** The widgets as the page first shows them, but for the conversion
    checkbox and the Touchstone scale, which is set to Linear. *)
Definition widgets (convert : bool) : App.Widgets :=
  App.mkWidgets dB None convert None None Linear.

(** A binary64 value just below 2.5e-6 (GHz), [2.4999999999999998e-06]. *)
Definition below_2500_hz : float := 0x1.4f8b588e368f0p-19.

(** The multiples of 0.01 GHz from 0 to 20 GHz. *)
Definition centi_ghz_grid : list float :=
  map (fun k => of_uint63 (Uint63Axioms.of_Z (Z.of_nat k)) / 100) (seq 0 2001).

End Samples.

(** ** Notions for the further properties of the script *)

Module Cover.

(** The label built on line 100 for the zero-based ports [i] and [j]. *)
Definition option_label (i j : nat) : string :=
  "S" ++ Fmt.decimal (N.of_nat (i + 1)) ++ Fmt.decimal (N.of_nat (j + 1)).

(** The magnitudes of the tensor entry [(i, j)] over the slice
    [idx_min:idx_max]. *)
Definition entry_magnitudes (np_cabs : complex -> float) (net : Network)
           (idx_min idx_max i j : nat) : list float :=
  map (fun m => np_cabs (nth j (nth i m []) (0, 0))) (slice idx_min idx_max (net_s net)).

(** The frequencies of the slice, in GHz. *)
Definition slice_ghz (net : Network) (idx_min idx_max : nat) : list float :=
  map (fun x => x / 1e9) (slice idx_min idx_max (net_f net)).

(** A trace with its y values taken to dB. *)
Definition to_dB (np_log10 : float -> float) (t : trace) : trace :=
  mkTrace (trace_name t) (trace_x t) (map (fun v => 20 * np_log10 v) (trace_y t)).

(** A function applied to the value of a result. *)
Definition result_map {A B : Type} (g : A -> B) (r : result A) : result B :=
  match r with
  | Ok a => Ok (g a)
  | Raise e => Raise e
  end.

(** The y-axis title of the CSV chart (line 54). *)
Definition csv_yaxis_title (scale_option : scale) : string :=
  match scale_option with
  | dB => "|S| (dB)"
  | Linear => "|S| (linear)"
  end.

(** How the Touchstone block can end after reading its file: nothing
    drawn, an error shown, or one chart drawn. *)
Definition touchstone_outcome (tail : list App.event) : Prop :=
  tail = [] \/ (exists e, tail = [App.ErrorShown e]) \/
  (exists fig, tail = [App.NetworkChart fig]).

End Cover.

(** ** The resolved window and the traces over it, as the specification
    words them *)

Module Window.

(** [p] is the lowest index of [fs] whose frequency, taken to GHz, has the
    least absolute difference to [freq]: no index has a smaller difference,
    and every lower index has a strictly greater one. *)
Definition nearest_index (fs : list float) (freq : float) (p : nat) : Prop :=
  exists fp, nth_error fs p = Some fp /\
    forall q fq, nth_error fs q = Some fq ->
      (abs (fp / 1e9 - freq) <=? abs (fq / 1e9 - freq)) = true /\
      ((q < p)%nat -> (abs (fp / 1e9 - freq) <? abs (fq / 1e9 - freq)) = true).

(** The zero-based port named by the digit at position [pos] of a
    selector: the digits 1 to 9 have the character codes 49 to 57, and port
    [d] is row or column [d - 1] of the matrix. *)
Definition port_of (param : string) (pos : nat) : nat :=
  match String.get pos param with
  | Some c => (nat_of_ascii c - 49)%nat
  | None => 0%nat
  end.

(** A magnitude in the scale mode. *)
Definition scaled (np_log10 : float -> float) (scale_option : scale) (v : float) : float :=
  match scale_option with
  | dB => 20 * np_log10 v
  | Linear => v
  end.

(** The trace of selector [param] over the index range [idx_min:idx_max]:
    the frequencies of the range in GHz, and the magnitudes of the tensor
    entry the selector names, in the scale mode. *)
Definition expected_trace (np_log10 : float -> float) (np_cabs : complex -> float)
           (net : Network) (scale_option : scale) (idx_min idx_max : nat)
           (param : string) : trace :=
  let mags :=
    map (fun m => np_cabs (nth (port_of param 2) (nth (port_of param 1) m []) (0, 0)))
        (slice idx_min idx_max (net_s net)) in
  mkTrace param
          (map (fun x => x / 1e9) (slice idx_min idx_max (net_f net)))
          (match scale_option with
           | dB => map (fun v => 20 * np_log10 v) mags
           | Linear => mags
           end).

End Window.

(** * Properties *)

(** ** Strings *)

Module TextFacts.

Import Text.

Lemma append_assoc (a b c : string) : (a ++ b) ++ c = a ++ b ++ c.
Proof. induction a as [|x a IH]; simpl; [reflexivity | now rewrite IH]. Qed.

Lemma append_nil_r (a : string) : a ++ "" = a.
Proof. induction a as [|x a IH]; simpl; [reflexivity | now rewrite IH]. Qed.

Lemma all_chars_app p (a b : string) :
  all_chars p (a ++ b) = all_chars p a && all_chars p b.
Proof.
  induction a as [|x a IH]; simpl; [reflexivity|].
  rewrite IH. now rewrite andb_assoc.
Qed.

Lemma all_chars_impl (p q : ascii -> bool) (s : string) :
  (forall c, p c = true -> q c = true) ->
  all_chars p s = true -> all_chars q s = true.
Proof.
  intros Hpq. induction s as [|x s IH]; simpl; [reflexivity|].
  intros H. apply andb_true_iff in H as [Hx Hs].
  rewrite (Hpq _ Hx), (IH Hs). reflexivity.
Qed.

Lemma digit_is_field_char c : is_digit c = true -> field_char c = true.
Proof. destruct c as [[] [] [] [] [] [] [] []]; vm_compute; congruence. Qed.

Lemma field_is_line_char c : field_char c = true -> line_char c = true.
Proof. destruct c as [[] [] [] [] [] [] [] []]; vm_compute; congruence. Qed.

Lemma digit_not_point c : is_digit c = true -> Ascii.eqb c "."%char = false.
Proof. destruct c as [[] [] [] [] [] [] [] []]; vm_compute; congruence. Qed.

Lemma digit_not_minus c rest :
  is_digit c = true -> Fmt.unsigned_part (String c rest) = String c rest.
Proof. destruct c as [[] [] [] [] [] [] [] []]; vm_compute; congruence. Qed.

Lemma nonempty_app_l (a b : string) : nonempty a = true -> nonempty (a ++ b) = true.
Proof. destruct a; simpl; congruence. Qed.

Lemma nonempty_app_r (a b : string) : nonempty b = true -> nonempty (a ++ b) = true.
Proof. destruct a; simpl; congruence. Qed.

(** Reading a word, then the character after it. *)
Lemma split_from_word (w cur rest : string) :
  all_chars field_char w = true ->
  split_from cur (w ++ rest) = split_from (cur ++ w) rest.
Proof.
  revert cur. induction w as [|x w IH]; intros cur H; simpl.
  - now rewrite append_nil_r.
  - simpl in H. apply andb_true_iff in H as [Hx Hw].
    unfold field_char in Hx. apply negb_true_iff in Hx. rewrite Hx.
    rewrite (IH _ Hw), append_assoc. reflexivity.
Qed.

Lemma split_word_space (w rest : string) :
  all_chars field_char w = true -> nonempty w = true ->
  split (w ++ String " "%char rest) = w :: split rest.
Proof.
  intros Hw Hne. unfold split. rewrite (split_from_word _ _ _ Hw).
  simpl. now rewrite Hne.
Qed.

Lemma lines_from_line (w cur rest : string) :
  all_chars line_char w = true ->
  lines_from cur (w ++ String nl rest) = (cur ++ w) :: lines_from "" rest.
Proof.
  revert cur. induction w as [|x w IH]; intros cur H; simpl.
  - now rewrite append_nil_r.
  - simpl in H. apply andb_true_iff in H as [Hx Hw].
    unfold line_char in Hx. apply negb_true_iff in Hx. unfold nl in Hx. rewrite Hx.
    rewrite (IH _ Hw), append_assoc. reflexivity.
Qed.

(** A text made of newline-terminated lines splits back into them. *)
Lemma lines_concat (ls : list string) :
  Forall (fun l => all_chars line_char l = true) ls ->
  lines (unlines ls) = ls.
Proof.
  induction 1 as [|l ls Hl _ IH]; [reflexivity|].
  unfold lines, unlines in *. simpl. rewrite (lines_from_line _ _ _ Hl). simpl.
  now rewrite IH.
Qed.

End TextFacts.

(** ** Fixed-point formatting *)

Module FmtFacts.

Import Text TextFacts Fmt.

Lemma digit_char_is_digit d : (0 <= d < 10)%Z -> is_digit (digit_char d) = true.
Proof.
  intros H.
  assert (d = 0 \/ d = 1 \/ d = 2 \/ d = 3 \/ d = 4 \/ d = 5 \/ d = 6 \/ d = 7 \/
          d = 8 \/ d = 9)%Z as Hd by lia.
  repeat (destruct Hd as [-> | Hd]; [reflexivity|]). now subst.
Qed.

Lemma string_of_uint_digits (u : Decimal.uint) :
  all_chars is_digit (NilEmpty.string_of_uint u) = true.
Proof. induction u; simpl; [reflexivity | assumption ..]. Qed.

Lemma decimal_digits (n : N) : all_chars is_digit (decimal n) = true.
Proof.
  unfold decimal, NilZero.string_of_uint.
  destruct (N.to_uint n); try reflexivity; apply (string_of_uint_digits (_ _)).
Qed.

Lemma decimal_nonempty (n : N) : nonempty (decimal n) = true.
Proof.
  unfold decimal, NilZero.string_of_uint. destruct (N.to_uint n); reflexivity.
Qed.

Lemma six_digits_digits (n : Z) : all_chars is_digit (six_digits n) = true.
Proof.
  unfold six_digits. simpl.
  rewrite !digit_char_is_digit; [reflexivity | apply Z.mod_pos_bound; lia ..].
Qed.

Lemma before_point_digits (d frac : string) :
  all_chars is_digit d = true ->
  before_point (d ++ String "."%char frac) = d.
Proof.
  induction d as [|c d IH]; simpl; [reflexivity|].
  intros H. apply andb_true_iff in H as [Hc Hd].
  rewrite (digit_not_point _ Hc), (IH Hd). reflexivity.
Qed.

Lemma after_point_digits (d frac : string) :
  all_chars is_digit d = true ->
  after_point (d ++ String "."%char frac) = Some frac.
Proof.
  induction d as [|c d IH]; simpl; [reflexivity|].
  intros H. apply andb_true_iff in H as [Hc Hd].
  rewrite (digit_not_point _ Hc). apply (IH Hd).
Qed.

Lemma unsigned_part_fixed6 (s : bool) (n : Z) :
  unsigned_part (fixed6 s n) =
  decimal (Z.to_N (n / 1000000)) ++ String "."%char (six_digits n).
Proof.
  unfold fixed6. destruct s; [reflexivity|]. simpl.
  pose proof (decimal_digits (Z.to_N (n / 1000000))) as Hd.
  pose proof (decimal_nonempty (Z.to_N (n / 1000000))) as Hn.
  destruct (decimal (Z.to_N (n / 1000000))) as [|c d]; [discriminate|].
  simpl in Hd. apply andb_true_iff in Hd as [Hc _].
  simpl. apply (digit_not_minus _ _ Hc).
Qed.

(** A finite value is printed as a numeral with six fractional digits. *)
Lemma fixed6_six_decimals (s : bool) (n : Z) : has_six_decimals (fixed6 s n) = true.
Proof.
  unfold has_six_decimals. rewrite unsigned_part_fixed6.
  rewrite before_point_digits, after_point_digits by apply decimal_digits.
  rewrite decimal_nonempty, decimal_digits, six_digits_digits. reflexivity.
Qed.

Lemma fixed6_field (s : bool) (n : Z) :
  all_chars field_char (fixed6 s n) = true /\ nonempty (fixed6 s n) = true.
Proof.
  unfold fixed6. split.
  - rewrite !all_chars_app.
    rewrite (all_chars_impl _ _ _ digit_is_field_char (decimal_digits _)).
    rewrite (all_chars_impl _ _ _ digit_is_field_char (six_digits_digits _)).
    destruct s; reflexivity.
  - apply nonempty_app_r, nonempty_app_l, decimal_nonempty.
Qed.

Lemma format_6f_cases (x : float) :
  (exists s n, format_6f x = fixed6 s n) \/ is_special (format_6f x) = true.
Proof.
  unfold format_6f. destruct (Prim2SF x) as [s | [|] | | s m e].
  - left. now exists s, 0%Z.
  - now right.
  - now right.
  - now right.
  - left. now exists s, (scaled_micro m e).
Qed.

Lemma Prim2SF_finite (x : float) :
  is_finite x = true ->
  (exists s, Prim2SF x = S754_zero s) \/ (exists s m e, Prim2SF x = S754_finite s m e).
Proof.
  unfold is_finite, Prim2SF. intros H.
  apply negb_true_iff, orb_false_iff in H as [Hnan Hinf].
  rewrite Hnan, Hinf.
  destruct (is_zero x); [left; eauto|].
  destruct (Z.frexp x) as [r ex].
  destruct (shr_fexp _ _ _ _ _) as [shr e'].
  destruct (shr_m shr); [left | right | left]; eauto.
Qed.

Lemma format_6f_finite (x : float) :
  is_finite x = true -> has_six_decimals (format_6f x) = true.
Proof.
  intros H. unfold format_6f.
  destruct (Prim2SF_finite x H) as [[s ->] | (s & m & e & ->)];
    apply fixed6_six_decimals.
Qed.

Lemma format_6f_shape (x : float) :
  has_six_decimals (format_6f x) = true \/ is_special (format_6f x) = true.
Proof.
  destruct (format_6f_cases x) as [(s & n & ->) | H]; [left | now right].
  apply fixed6_six_decimals.
Qed.

(** Whatever the value, the printed field is one non-empty word. *)
Lemma format_6f_field (x : float) :
  all_chars field_char (format_6f x) = true /\ nonempty (format_6f x) = true.
Proof.
  destruct (format_6f_cases x) as [(s & n & ->) | H]; [apply fixed6_field|].
  unfold is_special in H.
  apply orb_true_iff in H as [H | H]; [apply orb_true_iff in H as [H | H]|];
    apply String.eqb_eq in H; rewrite H; split; reflexivity.
Qed.

End FmtFacts.

(** ** The CSV section *)

Module CsvFacts.

Import Text TextFacts Fmt FmtFacts Csv.

(** The chart's traces come from [df]: the scale mode only changes the
    axis title. *)
Lemma chart_traces_ignore_scale np_log10 df x_col selected :
  match chart np_log10 df x_col dB selected, chart np_log10 df x_col Linear selected with
  | Ok (Some g), Ok (Some g') => fig_traces g = fig_traces g'
  | Ok None, Ok None => True
  | Raise e, Raise e' => e = e'
  | _, _ => False
  end.
Proof.
  unfold chart. destruct selected as [|p ps]; [exact I|].
  destruct (select df (p :: ps)); simpl; [|reflexivity].
  destruct (px_line df x_col (p :: ps)); simpl; reflexivity.
Qed.

Lemma row_text_at (pre rows : list (list float)) (cells : list float) :
  (3 <= List.length cells)%nat ->
  row_text (map freq_of (pre ++ cells :: rows)) (map samples_of (pre ++ cells :: rows))
           (List.length pre)
  = Ok (line_of_cells cells ++ String nl "").
Proof.
  intros Hlen. unfold row_text, getitem2, getitem.
  rewrite !nth_error_map, !nth_error_app2, Nat.sub_diag by lia. simpl.
  destruct cells as [|c0 [|c1 [|c2 rest]]]; simpl in Hlen; try lia.
  reflexivity.
Qed.

Lemma write_rows_seq (rows pre : list (list float)) (written : string) :
  Forall (fun cells => (3 <= List.length cells)%nat) rows ->
  write_rows (map freq_of (pre ++ rows)) (map samples_of (pre ++ rows))
             (seq (List.length pre) (List.length rows)) written
  = (written ++ unlines (map line_of_cells rows), Ok tt).
Proof.
  intros H. revert pre written.
  induction H as [|cells rows Hc _ IH]; intros pre written; simpl.
  - now rewrite append_nil_r.
  - rewrite (row_text_at pre rows cells Hc).
    specialize (IH (pre ++ [cells])%list (written ++ line_of_cells cells ++ String nl "")).
    rewrite <- !app_assoc, length_app, Nat.add_1_r in IH. simpl in IH.
    rewrite IH, !append_assoc. reflexivity.
Qed.

Lemma wf_rows_long (df : DataFrame) (k : nat) :
  Frame.wf df -> (k <= List.length (columns df))%nat ->
  Forall (fun cells => (k <= List.length cells)%nat) (values df).
Proof.
  unfold Frame.wf. intros Hwf Hk.
  eapply Forall_impl; [|exact Hwf]. simpl. intros cells ->. exact Hk.
Qed.

(** With two dependent columns or more the writer succeeds and the file
    is the header followed by one line per row. *)
Lemma synthesize_closed_form (df : DataFrame) :
  Forall (fun cells => (3 <= List.length cells)%nat) (values df) ->
  columns df <> [] ->
  synthesize df = (header ++ unlines (map line_of_cells (values df)), Ok tt).
Proof.
  intros Hrows Hcols. unfold synthesize, iloc_first, s_complex, iloc_rest.
  destruct (columns df) as [|c cs]; [congruence|].
  rewrite !map_map, !length_map.
  apply (write_rows_seq (values df) [] header Hrows).
Qed.

Lemma line_of_cells_firstn (cells : list float) :
  (3 <= List.length cells)%nat ->
  line_of_cells (firstn 3 cells) = line_of_cells cells.
Proof.
  destruct cells as [|c0 [|c1 [|c2 rest]]]; simpl; intros H; try lia. reflexivity.
Qed.

(** The fields of a written line. *)
Lemma split_row_line (fz : float) (s11 s21 : complex) :
  split (row_line fz s11 s21) =
  [format_6f (fz / 1e9); format_6f (fst s11); format_6f (snd s11);
   format_6f (fst s21); format_6f (snd s21); "0"; "0"; "0"; "0"].
Proof.
  unfold row_line.
  repeat (match goal with
          | |- context [split (format_6f ?x ++ " " ++ ?r)] =>
              change (format_6f x ++ " " ++ r) with (format_6f x ++ String " "%char r);
              rewrite (split_word_space (format_6f x) r
                         (proj1 (format_6f_field x)) (proj2 (format_6f_field x)))
          end).
  reflexivity.
Qed.

Lemma row_line_is_line (fz : float) (s11 s21 : complex) :
  all_chars line_char (row_line fz s11 s21) = true.
Proof.
  unfold row_line. rewrite !all_chars_app.
  rewrite !(all_chars_impl _ _ _ field_is_line_char (proj1 (format_6f_field _))).
  reflexivity.
Qed.

End CsvFacts.

(** ** The order of binary64 values *)

Module FloatOrder.

Ltac split_compares :=
  repeat match goal with
         | H : context [(?a ?= ?b)%Z] |- _ => destruct (Z.compare_spec a b)
         | |- context [(?a ?= ?b)%Z] => destruct (Z.compare_spec a b)
         | H : context [(?a ?= ?b)%positive] |- _ => destruct (Pos.compare_spec a b)
         | |- context [(?a ?= ?b)%positive] => destruct (Pos.compare_spec a b)
         end.

Ltac order_cases :=
  unfold SFleb, SFltb, SFcompare; intros;
  repeat match goal with
         | b : bool |- _ => destruct b
         end;
  simpl in *; try congruence;
  change (Pos.compare_cont Eq) with Pos.compare in *;
  split_compares; simpl in *; subst; try congruence; try lia.

Lemma SFleb_refl (a : spec_float) : a <> S754_nan -> SFleb a a = true.
Proof.
  destruct a as [s | s | | s m e]; order_cases.
Qed.

Lemma SFleb_false_ltb (a b : spec_float) :
  a <> S754_nan -> b <> S754_nan -> SFleb a b = false -> SFltb b a = true.
Proof.
  destruct a as [s | s | | s m e], b as [s' | s' | | s' m' e']; order_cases.
Qed.

Lemma SFltb_leb (a b : spec_float) : SFltb a b = true -> SFleb a b = true.
Proof.
  unfold SFleb, SFltb. destruct (SFcompare a b) as [[| |]|]; congruence.
Qed.

Lemma SFltb_leb_trans (a b c : spec_float) :
  SFltb a b = true -> SFleb b c = true -> SFltb a c = true.
Proof.
  destruct a as [s | s | | s m e], b as [s' | s' | | s' m' e'],
           c as [s'' | s'' | | s'' m'' e'']; order_cases.
Qed.

Lemma not_nan_spec (x : float) : is_nan x = false -> Prim2SF x <> S754_nan.
Proof.
  unfold Prim2SF. intros ->.
  destruct (is_zero x); [discriminate|].
  destruct (is_infinity x); [discriminate|].
  destruct (Z.frexp x) as [r ex].
  destruct (shr_fexp _ _ _ _ _) as [shr e'].
  destruct (shr_m shr); discriminate.
Qed.

(** The same facts on primitive floats, through their specification. *)
Lemma leb_refl (x : float) : is_nan x = false -> (x <=? x) = true.
Proof. intros H. rewrite leb_spec. apply SFleb_refl, not_nan_spec, H. Qed.

Lemma leb_false_ltb (x y : float) :
  is_nan x = false -> is_nan y = false -> (x <=? y) = false -> (y <? x) = true.
Proof.
  intros Hx Hy. rewrite leb_spec, ltb_spec.
  apply SFleb_false_ltb; apply not_nan_spec; assumption.
Qed.

Lemma ltb_leb (x y : float) : (x <? y) = true -> (x <=? y) = true.
Proof. rewrite leb_spec, ltb_spec. apply SFltb_leb. Qed.

Lemma ltb_leb_trans (x y z : float) :
  (x <? y) = true -> (y <=? z) = true -> (x <? z) = true.
Proof. rewrite !leb_spec, !ltb_spec. apply SFltb_leb_trans. Qed.

End FloatOrder.


(** ** The Touchstone section *)

Module NetFacts.

Import FloatOrder.

Lemma mapM_Forall2 {A B : Type} (f : A -> result B) (P : A -> B -> Prop) (xs : list A) :
  Forall (fun x => exists y, f x = Ok y /\ P x y) xs ->
  exists ys, mapM f xs = Ok ys /\ Forall2 P xs ys.
Proof.
  induction 1 as [|x xs (y & Hy & HP) _ (ys & Hys & HF)]; simpl.
  - exists []. split; [reflexivity | constructor].
  - exists (y :: ys). rewrite Hy, Hys. split; [reflexivity | now constructor].
Qed.

Lemma mapM_raises {A B : Type} (f : A -> result B) (xs : list A) (x : A) (e : exn) :
  In x xs -> f x = Raise e -> exists e', mapM f xs = Raise e'.
Proof.
  intros Hin Hx. induction xs as [|a xs IH]; [contradiction|].
  simpl. destruct Hin as [-> | Hin].
  - rewrite Hx. now exists e.
  - destruct (f a) as [b | e0]; simpl; [|now exists e0].
    destruct (IH Hin) as (e' & ->). now exists e'.
Qed.

Lemma slice_length {A : Type} (lo hi : nat) (xs : list A) :
  (hi <= List.length xs)%nat -> List.length (slice lo hi xs) = (hi - lo)%nat.
Proof. intros H. unfold slice. rewrite length_firstn, length_skipn. lia. Qed.

Lemma slice_nth_error {A : Type} (lo hi q : nat) (xs : list A) :
  (lo <= q < hi)%nat -> nth_error (slice lo hi xs) (q - lo) = nth_error xs q.
Proof.
  intros H. unfold slice. rewrite nth_error_firstn, nth_error_skipn.
  replace (lo + (q - lo))%nat with q by lia.
  destruct (Nat.ltb_spec (q - lo) (hi - lo)); [reflexivity | lia].
Qed.

(** *** [np.argmin] *)

Lemma argmin_from_bound (xs : list float) (mp : float) (best i : nat) :
  (best < i)%nat -> (argmin_from mp best i xs < i + List.length xs)%nat.
Proof.
  revert mp best i. induction xs as [|x xs IH]; intros mp best i H; simpl; [lia|].
  destruct (negb (mp <=? x)).
  - destruct (is_nan x); [lia|]. specialize (IH x i (S i)). lia.
  - specialize (IH mp best (S i)). lia.
Qed.

(** The index returned is an index of the array. *)
Lemma argmin_bound (xs : list float) (p : nat) :
  argmin xs = Ok p -> (p < List.length xs)%nat.
Proof.
  destruct xs as [|x xs]; simpl; [discriminate|].
  intros [= <-]. destruct (is_nan x); [lia|].
  pose proof (argmin_from_bound xs x 0 1). lia.
Qed.

Lemma argmin_nonempty (xs : list float) : xs <> [] -> exists p, argmin xs = Ok p.
Proof. destruct xs; [congruence | simpl; eauto]. Qed.

Lemma first_minimum_snoc_keep (pre : list float) (best : nat) (mp x : float) :
  first_minimum pre best -> nth_error pre best = Some mp ->
  (mp <=? x) = true ->
  first_minimum (pre ++ [x]) best.
Proof.
  intros (d & Hd & Hle & Hlt) Hmp Hx.
  assert (d = mp) as -> by congruence.
  assert (best < List.length pre)%nat as Hb by (apply nth_error_Some; congruence).
  exists mp. split; [now rewrite nth_error_app1|]. split.
  - intros q y Hq. rewrite nth_error_app in Hq.
    destruct (Nat.ltb_spec q (List.length pre)); [eauto|].
    destruct (q - List.length pre)%nat as [|n]; simpl in Hq.
    + now injection Hq as <-.
    + now destruct n.
  - intros q y Hq Hlt'. rewrite nth_error_app1 in Hq by lia. eauto.
Qed.

Lemma first_minimum_snoc_new (pre : list float) (best : nat) (mp x : float) :
  first_minimum pre best -> nth_error pre best = Some mp ->
  (x <? mp) = true -> is_nan x = false ->
  first_minimum (pre ++ [x]) (List.length pre).
Proof.
  intros (d & Hd & Hle & Hlt) Hmp Hx Hnan.
  assert (d = mp) as -> by congruence.
  exists x. split; [now rewrite nth_error_app2, Nat.sub_diag by lia|].
  assert (forall q y, nth_error pre q = Some y -> (x <? y) = true) as Hbelow.
  { intros q y Hq. eapply ltb_leb_trans; eauto. }
  split.
  - intros q y Hq. rewrite nth_error_app in Hq.
    destruct (Nat.ltb_spec q (List.length pre)); [eapply ltb_leb; eauto|].
    destruct (q - List.length pre)%nat as [|n]; simpl in Hq.
    + injection Hq as <-. now apply leb_refl.
    + now destruct n.
  - intros q y Hq Hlt'. rewrite nth_error_app1 in Hq by lia. eauto.
Qed.

Lemma argmin_from_first_minimum (xs pre : list float) (mp : float) (best : nat) :
  Forall (fun d => is_nan d = false) pre ->
  Forall (fun d => is_nan d = false) xs ->
  first_minimum pre best -> nth_error pre best = Some mp ->
  first_minimum (pre ++ xs) (argmin_from mp best (List.length pre) xs).
Proof.
  revert pre mp best.
  induction xs as [|x xs IH]; intros pre mp best Hpre Hxs Hmin Hmp; simpl.
  - now rewrite app_nil_r.
  - inversion Hxs as [|? ? Hx Hxs']; subst.
    assert (is_nan mp = false) as Hmpn.
    { rewrite Forall_forall in Hpre. eapply Hpre, nth_error_In, Hmp. }
    assert (Forall (fun d => is_nan d = false) (pre ++ [x])) as Hpre'.
    { apply Forall_app. split; [assumption | now constructor]. }
    replace (pre ++ x :: xs)%list with ((pre ++ [x]) ++ xs)%list
      by (now rewrite <- app_assoc).
    replace (S (List.length pre)) with (List.length (pre ++ [x]))
      by (rewrite length_app; simpl; lia).
    destruct (mp <=? x) eqn:Hle; simpl.
    + apply IH; try assumption.
      * now apply first_minimum_snoc_keep with (mp := mp).
      * rewrite nth_error_app1; [assumption|]. apply nth_error_Some. congruence.
    + rewrite Hx.
      apply IH; try assumption.
      * apply first_minimum_snoc_new with (best := best) (mp := mp); try assumption.
        now apply leb_false_ltb.
      * now rewrite nth_error_app2, Nat.sub_diag by lia.
Qed.

(** On an array without NaN, [np.argmin] returns the lowest index of a
    least element. *)
Lemma argmin_first_minimum (ds : list float) :
  ds <> [] -> Forall (fun d => is_nan d = false) ds ->
  exists p, argmin ds = Ok p /\ first_minimum ds p.
Proof.
  destruct ds as [|d ds]; [congruence|]. intros _ Hall.
  inversion Hall as [|? ? Hd Hds]; subst. simpl. rewrite Hd.
  eexists. split; [reflexivity|].
  apply (argmin_from_first_minimum ds [d] d 0).
  - now constructor.
  - assumption.
  - exists d. split; [reflexivity|]. split.
    + intros [|[|q]] y Hq; simpl in Hq; try discriminate.
      injection Hq as <-. now apply leb_refl.
    + intros q y _ Hq. lia.
  - reflexivity.
Qed.

(** *** Selectors and extraction *)

Lemma axis_index_in_range (n : nat) (d : Z) :
  (1 <= d <= Z.of_nat n)%Z ->
  axis_index n (d - 1) = Ok (Z.to_nat (d - 1)).
Proof.
  intros H. unfold axis_index.
  destruct (Z.leb_spec 0 (d - 1)); [|lia].
  destruct (Z.ltb_spec (d - 1) (Z.of_nat n)); [reflexivity | lia].
Qed.

Lemma axis_index_beyond (n : nat) (k : Z) :
  (Z.of_nat n <= k)%Z -> axis_index n k = Raise IndexError.
Proof.
  intros H. unfold axis_index.
  destruct (Z.ltb_spec k (Z.of_nat n)); [lia|]. rewrite andb_false_r.
  destruct (Z.ltb_spec k 0); [lia|]. now rewrite andb_false_r.
Qed.

Lemma axis_index_error (n : nat) (k : Z) (e : exn) :
  axis_index n k = Raise e -> e = IndexError.
Proof.
  unfold axis_index.
  destruct (_ && _); [discriminate|]. destruct (_ && _); [discriminate|]. congruence.
Qed.

Section ExtractFacts.

Variable np_log10 : float -> float.
Variable np_cabs : complex -> float.

Lemma extract_one_in_range (net : Network) (idx_min idx_max : nat)
      (scale_option : scale) (param : string) :
  List.length (net_s net) = List.length (net_f net) ->
  (idx_max <= List.length (net_f net))%nat ->
  selector_in_range (net_nports net) param = true ->
  exists t, extract_one np_log10 np_cabs net idx_min idx_max scale_option param = Ok t /\
            trace_for net idx_min idx_max param t.
Proof.
  intros Hs Hmax Hsel.
  assert (idx_max <= List.length (net_s net))%nat as Hmax' by lia.
  destruct param as [|c0 [|c1 [|c2 rest]]]; try discriminate.
  simpl in Hsel.
  apply andb_true_iff in Hsel as [Hsel H2]. apply andb_true_iff in Hsel as [Hsel H1].
  apply andb_true_iff in Hsel as [Hd1 Hd2].
  apply andb_true_iff in H1 as [H1a H1b]. apply andb_true_iff in H2 as [H2a H2b].
  apply Z.leb_le in H1a, H1b, H2a, H2b.
  unfold extract_one, char_at, int_of_char, magnitudes. simpl.
  rewrite Hd1, Hd2. simpl.
  fold (digit_value c1). fold (digit_value c2).
  rewrite !axis_index_in_range by lia. simpl.
  eexists. split; [reflexivity|].
  unfold trace_for. simpl. split; [reflexivity|]. split; [reflexivity|].
  destruct scale_option; rewrite ?length_map, !slice_length;
    solve [exact Hmax' | exact Hmax | split; reflexivity].
Qed.

(** In dB mode the plotted values of the Touchstone section are
    [20*log10] of the magnitudes [np.abs] returned. *)
Lemma extract_one_dB (net : Network) (idx_min idx_max : nat) (param : string) (t : trace) :
  extract_one np_log10 np_cabs net idx_min idx_max dB param = Ok t ->
  exists t', extract_one np_log10 np_cabs net idx_min idx_max Linear param = Ok t' /\
             trace_x t = trace_x t' /\
             trace_y t = map (fun v => 20 * np_log10 v) (trace_y t').
Proof.
  unfold extract_one.
  destruct (char_at param 1) as [c1|]; simpl; [|discriminate].
  destruct (int_of_char c1) as [d1|]; simpl; [|discriminate].
  destruct (char_at param 2) as [c2|]; simpl; [|discriminate].
  destruct (int_of_char c2) as [d2|]; simpl; [|discriminate].
  destruct (magnitudes _ _ _ _ _ _) as [y|]; simpl; [|discriminate].
  intros [= <-]. eexists. split; [reflexivity|]. split; reflexivity.
Qed.

Lemma extract_one_beyond (net : Network) (idx_min idx_max : nat)
      (scale_option : scale) (c0 c1 c2 : ascii) (rest : string) :
  Text.is_digit c1 = true -> Text.is_digit c2 = true ->
  (Z.of_nat (net_nports net) <= digit_value c1 - 1 \/
   Z.of_nat (net_nports net) <= digit_value c2 - 1)%Z ->
  extract_one np_log10 np_cabs net idx_min idx_max scale_option
              (String c0 (String c1 (String c2 rest))) = Raise IndexError.
Proof.
  intros Hd1 Hd2 Hout.
  unfold extract_one, char_at, int_of_char, magnitudes. simpl.
  rewrite Hd1, Hd2. simpl.
  fold (digit_value c1). fold (digit_value c2).
  destruct Hout as [H | H].
  - now rewrite (axis_index_beyond _ _ H).
  - destruct (axis_index (net_nports net) (digit_value c1 - 1)) as [i|e] eqn:Hi; simpl.
    + now rewrite (axis_index_beyond _ _ H).
    + now rewrite (axis_index_error _ _ _ Hi).
Qed.

(** The window resolves whenever the network has a frequency point. *)
Lemma resolve_window_ok (net : Network) (freq_min freq_max : float) :
  net_f net <> [] ->
  exists idx_min k,
    argmin (distances net freq_min) = Ok idx_min /\
    argmin (distances net freq_max) = Ok k /\
    resolve_window net freq_min freq_max = Ok (idx_min, (k + 1)%nat) /\
    (idx_min < List.length (net_f net))%nat /\ (k < List.length (net_f net))%nat.
Proof.
  intros Hf.
  assert (forall fr, distances net fr <> []) as Hne.
  { intros fr. unfold distances. destruct (net_f net); [congruence | discriminate]. }
  destruct (argmin_nonempty _ (Hne freq_min)) as (p & Hp).
  destruct (argmin_nonempty _ (Hne freq_max)) as (k & Hk).
  exists p, k. unfold resolve_window. rewrite Hp, Hk. simpl.
  apply argmin_bound in Hp as Hpb. apply argmin_bound in Hk as Hkb.
  unfold distances in Hpb, Hkb. rewrite length_map in Hpb, Hkb. auto.
Qed.

Lemma extract_in_range (net : Network) (freq_min freq_max : float)
      (selected : list string) (scale_option : scale) (idx_min k : nat) :
  Net.wf net ->
  resolve_window net freq_min freq_max = Ok (idx_min, (k + 1)%nat) ->
  (k < List.length (net_f net))%nat ->
  Forall (fun p => selector_in_range (net_nports net) p = true) selected ->
  exists traces,
    extract np_log10 np_cabs net freq_min freq_max selected scale_option = Ok traces /\
    Forall2 (trace_for net idx_min (k + 1)) selected traces.
Proof.
  intros [Hs _] Hw Hk Hsel. unfold extract. rewrite Hw. simpl.
  apply mapM_Forall2. eapply Forall_impl; [|exact Hsel].
  intros p Hp. apply extract_one_in_range; [assumption | lia | assumption].
Qed.

Lemma Forall2_trace_names (net : Network) (lo hi : nat) (selected : list string)
      (traces : list trace) :
  Forall2 (trace_for net lo hi) selected traces ->
  map trace_name traces = selected /\
  Forall (fun t => trace_x t = map (fun x => x / 1e9) (slice lo hi (net_f net)) /\
                   List.length (trace_x t) = (hi - lo)%nat /\
                   List.length (trace_y t) = (hi - lo)%nat) traces.
Proof.
  induction 1 as [|p t ps ts (Hn & Hx & Hlx & Hly) _ [IH1 IH2]]; simpl.
  - split; [reflexivity | constructor].
  - split; [now rewrite Hn, IH1 | constructor; auto].
Qed.

End ExtractFacts.

End NetFacts.

(** * The statements of the specification, against the script *)

Import Samples.

(** ** Scale transform (C1) *)

(** C1, the CSV chart in dB mode.  The spec's scenario, [freq_ghz=[1,2,3]]
    and [S11=[0.5,0.25,0.1]] with the scale set to dB: the figure handed to
    the renderer carries the values of [df] as they are, under the axis title
    [|S| (dB)], whatever [np.log10] computes; and for every frame and
    selection the traces plotted in dB mode are those plotted in Linear mode.
    The transformed [plot_df] is never plotted. *)
Theorem C1_csv_chart_plots_untransformed_values (np_log10 : float -> float) :
  Csv.chart np_log10 scenario_df "freq_ghz" dB ["S11"] =
    Ok (Some (mkFigure [mkTrace "S11" [1; 2; 3] [0.5; 0.25; 0.1]]
                "freq_ghz" "|S| (dB)")) /\
  forall df x_col selected,
    Csv.plotted (Csv.chart np_log10 df x_col dB selected) =
    Csv.plotted (Csv.chart np_log10 df x_col Linear selected).
Proof.
  split; [reflexivity|].
  intros df x_col selected.
  pose proof (CsvFacts.chart_traces_ignore_scale np_log10 df x_col selected) as Hs.
  destruct (Csv.chart np_log10 df x_col dB selected) as [[g|]|e];
    destruct (Csv.chart np_log10 df x_col Linear selected) as [[g'|]|e'];
    simpl; try contradiction; congruence.
Qed.

(** ** Column interpretation (C5) *)

(** C5, as stated, fails on a one-column dataset: the interpreter returns
    its column as the x-axis and no labels, and the chart step then draws
    nothing; no error is raised. *)
Lemma C5_single_column_is_not_rejected :
  Csv.interpret (mkFrame ["freq_ghz"] [[1]; [2]]) = Ok ("freq_ghz", []) /\
  Csv.chart log10_double (mkFrame ["freq_ghz"] [[1]; [2]]) "freq_ghz" dB [] = Ok None.
Proof. split; reflexivity. Qed.

(** C5, amended.  A dataset with at least one column is never rejected:
    column 0 is the x-axis and the remaining labels are returned in file
    order, one fewer than the columns (none for a single column, in which
    case no chart is drawn); only a dataset without columns raises, and what
    it raises is an index error. *)
Theorem C5_interpret_splits_columns (x_col : string) (y_cols : list string)
        (cells : list (list float)) :
  Csv.interpret (mkFrame (x_col :: y_cols) cells) = Ok (x_col, y_cols) /\
  List.length y_cols = (List.length (x_col :: y_cols) - 1)%nat /\
  (forall np_log10 scale_option,
     Csv.chart np_log10 (mkFrame [x_col] cells) x_col scale_option [] = Ok None) /\
  Csv.interpret (mkFrame [] cells) = Raise IndexError.
Proof.
  repeat split; simpl; lia.
Qed.

(** ** The synthetic network file (C3, C6, C9, C10) *)

(** C3, as stated, fails on the zero placeholders: for the one-row frame
    [1, 0.5, 0.25] the five computed fields have six decimals and the four
    placeholders are the bare numeral [0].  (A cell that is not a number,
    as pandas reads an empty cell, is written [nan].) *)
Lemma C3_placeholders_are_bare_zeros :
  Csv.synthesize three_col_df =
    (Text.unlines ["# GHz S RI R 50";
                   "1.000000 0.500000 0.000000 0.250000 0.000000 0 0 0 0"], Ok tt) /\
  map Fmt.has_six_decimals
      (Text.split "1.000000 0.500000 0.000000 0.250000 0.000000 0 0 0 0") =
    [true; true; true; true; true; false; false; false; false] /\
  Csv.line_of_cells [1; nan; 0.25] = "1.000000 nan nan 0.250000 0.000000 0 0 0 0".
Proof. repeat split; vm_compute; reflexivity. Qed.

(** C3, amended.  For a well-formed dataset with at least two dependent
    columns the writer succeeds; the file is the header line
    [# GHz S RI R 50] followed by one line per row; each line has exactly
    nine whitespace-separated fields: the [.6f] renderings of the frequency
    and of the real and imaginary parts of the two samples, then four
    placeholders that are the bare numeral [0].  A rendering has six decimal
    places whenever its value is finite, and is [nan], [inf] or [-inf]
    otherwise. *)
Theorem C3_synthetic_file_layout (df : DataFrame) :
  Frame.wf df -> (3 <= List.length (columns df))%nat ->
  Csv.synthesize df =
    (Text.unlines ("# GHz S RI R 50" :: map Csv.line_of_cells (values df)), Ok tt) /\
  Text.lines (fst (Csv.synthesize df)) =
    "# GHz S RI R 50" :: map Csv.line_of_cells (values df) /\
  List.length (map Csv.line_of_cells (values df)) = List.length (values df) /\
  Forall (fun cells =>
            Text.split (Csv.line_of_cells cells) =
              (map Fmt.format_6f (Csv.printed_values cells) ++ ["0"; "0"; "0"; "0"])%list /\
            List.length (Text.split (Csv.line_of_cells cells)) = 9%nat /\
            Forall (fun v =>
                      (Fmt.has_six_decimals (Fmt.format_6f v) = true \/
                       Fmt.is_special (Fmt.format_6f v) = true) /\
                      (is_finite v = true ->
                       Fmt.has_six_decimals (Fmt.format_6f v) = true))
                   (Csv.printed_values cells))
         (values df).
Proof.
  intros Hwf Hcols.
  assert (Csv.synthesize df =
          (Text.unlines ("# GHz S RI R 50" :: map Csv.line_of_cells (values df)), Ok tt))
    as Hsyn.
  { rewrite CsvFacts.synthesize_closed_form.
    - reflexivity.
    - now apply CsvFacts.wf_rows_long.
    - destruct (columns df); [simpl in Hcols; lia | discriminate]. }
  split; [exact Hsyn|]. split; [|split].
  - rewrite Hsyn. cbn [fst]. apply TextFacts.lines_concat.
    constructor; [reflexivity|].
    apply Forall_map, Forall_forall. intros cells _.
    apply CsvFacts.row_line_is_line.
  - apply length_map.
  - apply Forall_forall. intros cells _.
    assert (Text.split (Csv.line_of_cells cells) =
            (map Fmt.format_6f (Csv.printed_values cells) ++ ["0"; "0"; "0"; "0"])%list)
      as Hsplit by apply CsvFacts.split_row_line.
    split; [exact Hsplit|]. split; [now rewrite Hsplit|].
    apply Forall_forall. intros v _. split.
    + apply FmtFacts.format_6f_shape.
    + apply FmtFacts.format_6f_finite.
Qed.

Lemma C3_synthetic_file_layout_witness :
  Text.lines (fst (Csv.synthesize three_col_df)) =
    "# GHz S RI R 50" :: map Csv.line_of_cells (values three_col_df) /\
  List.length (map Csv.line_of_cells (values three_col_df)) = 1%nat.
Proof.
  assert (Frame.wf three_col_df) as Hwf by (repeat constructor).
  assert (3 <= List.length (columns three_col_df))%nat as Hc by (simpl; lia).
  destruct (C3_synthetic_file_layout three_col_df Hwf Hc) as (_ & Hl & Hn & _).
  split; [exact Hl | exact Hn].
Defined.

(** C6, as stated, fails on a dataset without rows: with one column and no
    row the loop body never runs, and the writer ends normally with a file
    that holds the header alone. *)
Lemma C6_no_rows_no_failure :
  Csv.synthesize (mkFrame ["freq_ghz"] []) = (Text.unlines ["# GHz S RI R 50"], Ok tt).
Proof. reflexivity. Qed.

Lemma synthesize_short_rows (df : DataFrame) (cells : list float) (rest : list (list float)) :
  columns df <> [] -> values df = cells :: rest ->
  (1 <= List.length cells <= 2)%nat ->
  Csv.synthesize df = (Csv.header, Raise IndexError).
Proof.
  intros Hc Hv Hlen. unfold Csv.synthesize, Frame.iloc_first, Csv.s_complex, Frame.iloc_rest.
  destruct (columns df); [congruence|]. rewrite Hv.
  destruct cells as [|c0 [|c1 [|c2 more]]]; simpl in Hlen; try lia; reflexivity.
Qed.

Lemma synthesize_no_rows (df : DataFrame) :
  columns df <> [] -> values df = [] -> Csv.synthesize df = (Csv.header, Ok tt).
Proof.
  intros Hc Hv. unfold Csv.synthesize, Frame.iloc_first.
  destruct (columns df); [congruence|]. now rewrite Hv.
Qed.

(** C6, amended.  With zero dependent columns and at least one row the
    writer raises an index error on the first row, after the header; without
    rows it ends normally with the header alone.  With more than two
    dependent columns (indeed with two or more) it ends normally and the file
    is the one written for the first three columns alone. *)
Theorem C6_synthesizer_column_use (df : DataFrame) :
  Frame.wf df ->
  (List.length (columns df) = 1%nat -> values df <> [] ->
   Csv.synthesize df = (Csv.header, Raise IndexError)) /\
  (columns df <> [] -> values df = [] -> Csv.synthesize df = (Csv.header, Ok tt)) /\
  ((3 <= List.length (columns df))%nat ->
   snd (Csv.synthesize df) = Ok tt /\
   Csv.synthesize df = Csv.synthesize (Csv.first_columns 3 df)).
Proof.
  intros Hwf. split; [|split].
  - intros Hone Hrows.
    destruct (values df) as [|cells rest] eqn:Hv; [congruence|].
    apply (synthesize_short_rows df cells rest).
    + destruct (columns df); [discriminate | congruence].
    + exact Hv.
    + unfold Frame.wf in Hwf. rewrite Hv in Hwf. inversion Hwf; subst. lia.
  - apply synthesize_no_rows.
  - intros Hcols.
    assert (columns df <> []) as Hne by (destruct (columns df); [simpl in Hcols; lia | discriminate]).
    pose proof (CsvFacts.wf_rows_long df 3 Hwf Hcols) as Hrows.
    rewrite (CsvFacts.synthesize_closed_form df Hrows Hne).
    split; [reflexivity|].
    rewrite CsvFacts.synthesize_closed_form; unfold Csv.first_columns; cbn [values columns].
    + rewrite map_map.
      rewrite (map_ext_in (fun cells => Csv.line_of_cells (firstn 3 cells)) Csv.line_of_cells);
        [reflexivity|].
      intros cells Hin. apply CsvFacts.line_of_cells_firstn.
      rewrite Forall_forall in Hrows. now apply Hrows.
    + apply Forall_map. eapply Forall_impl; [|exact Hrows].
      intros cells H. cbv beta in *. rewrite length_firstn. lia.
    + destruct (columns df); [congruence | discriminate].
Qed.

Lemma C6_synthesizer_column_use_witness :
  Csv.synthesize (mkFrame ["freq_ghz"] [[1]]) = (Csv.header, Raise IndexError) /\
  Csv.synthesize (mkFrame ["freq_ghz"; "S11"; "S21"; "S31"] [[1; 0.5; 0.25; 0.125]]) =
  Csv.synthesize
    (Csv.first_columns 3 (mkFrame ["freq_ghz"; "S11"; "S21"; "S31"] [[1; 0.5; 0.25; 0.125]])).
Proof.
  split.
  - assert (Frame.wf (mkFrame ["freq_ghz"] [[1]])) as Hwf by (repeat constructor).
    destruct (C6_synthesizer_column_use _ Hwf) as (Hone & _ & _).
    apply Hone; [reflexivity | discriminate].
  - assert (Frame.wf (mkFrame ["freq_ghz"; "S11"; "S21"; "S31"] [[1; 0.5; 0.25; 0.125]]))
      as Hwf by (repeat constructor).
    destruct (C6_synthesizer_column_use _ Hwf) as (_ & _ & Hmany).
    apply Hmany. simpl. lia.
Defined.

(** C9, as stated, fails in binary64 arithmetic: for the column-0 value
    [2.4999999999999998e-06] the product with [1e9] and the quotient by
    [1e9] give the next value up, and the file gets [0.000003] where the
    value itself prints as [0.000002]. *)
Lemma C9_scaling_round_trip_changes_value :
  Leibniz.eqb (below_2500_hz * 1e9 / 1e9) below_2500_hz = false /\
  Fmt.format_6f below_2500_hz = "0.000002" /\
  Csv.synthesize (mkFrame ["freq_ghz"; "S11"; "S21"] [[below_2500_hz; 0.5; 0.25]]) =
    (Text.unlines ["# GHz S RI R 50";
                   "0.000003 0.500000 0.000000 0.250000 0.000000 0 0 0 0"], Ok tt).
Proof. repeat split; vm_compute; reflexivity. Qed.

Lemma centi_ghz_grid_exact :
  forallb (fun x => Leibniz.eqb (x * 1e9 / 1e9) x) centi_ghz_grid = true.
Proof. vm_compute. reflexivity. Qed.

(** C9, amended.  The frequency field of each written line is the [.6f]
    rendering of the column-0 value multiplied by [1e9] and then divided by
    [1e9], both in binary64; it is the rendering of the column-0 value itself
    whenever that round trip gives the value back, as it does for every
    multiple of 0.01 GHz from 0 to 20 GHz. *)
Theorem C9_written_frequency_field (df : DataFrame) :
  Frame.wf df -> (3 <= List.length (columns df))%nat ->
  Text.lines (fst (Csv.synthesize df)) =
    "# GHz S RI R 50" :: map Csv.line_of_cells (values df) /\
  Forall (fun cells =>
            let x := nth 0 cells 0 in
            hd_error (Text.split (Csv.line_of_cells cells)) =
              Some (Fmt.format_6f (x * 1e9 / 1e9)) /\
            (x * 1e9 / 1e9 = x ->
             hd_error (Text.split (Csv.line_of_cells cells)) = Some (Fmt.format_6f x)))
         (values df) /\
  Forall (fun x => x * 1e9 / 1e9 = x) centi_ghz_grid.
Proof.
  intros Hwf Hcols. split; [|split].
  - assert (columns df <> []) as Hne
        by (destruct (columns df); [simpl in Hcols; lia | discriminate]).
    rewrite (CsvFacts.synthesize_closed_form df (CsvFacts.wf_rows_long df 3 Hwf Hcols) Hne).
    cbn [fst]. apply (TextFacts.lines_concat ("# GHz S RI R 50" :: _)).
    constructor; [reflexivity|].
    apply Forall_map, Forall_forall. intros cells _.
    apply CsvFacts.row_line_is_line.
  - apply Forall_forall. intros cells _. cbv zeta.
    unfold Csv.line_of_cells. rewrite CsvFacts.split_row_line. cbn [hd_error].
    split; [reflexivity|]. now intros ->.
  - apply Forall_forall. intros x Hx.
    apply Leibniz.eqb_spec.
    pose proof centi_ghz_grid_exact as H.
    rewrite forallb_forall in H. now apply H.
Qed.

Lemma C9_written_frequency_field_witness :
  Text.lines (fst (Csv.synthesize three_col_df)) =
    "# GHz S RI R 50" :: map Csv.line_of_cells (values three_col_df).
Proof.
  apply (C9_written_frequency_field three_col_df).
  - repeat constructor.
  - simpl. lia.
Defined.

(** C10, as stated, fails on a dataset without rows: with one dependent
    column and no row the loop body never runs and the conversion ends
    normally, the file holding the header alone. *)
Lemma C10_no_rows_no_index_error :
  Csv.synthesize (mkFrame ["freq_ghz"; "S11"] []) = (Text.unlines ["# GHz S RI R 50"], Ok tt).
Proof. reflexivity. Qed.

(** C10, amended.  For a well-formed dataset with exactly one dependent
    column and at least one row, the conversion raises an index error on the
    first row: the first sample slot [s_complex[0,0]] is read, the second,
    [s_complex[0,1]], is out of bounds; the row is not written, and the file
    holds the header alone. *)
Theorem C10_one_dependent_column_raises (df : DataFrame) :
  Frame.wf df -> List.length (columns df) = 2%nat -> values df <> [] ->
  Csv.synthesize df = (Csv.header, Raise IndexError) /\
  (exists s11, Csv.getitem2 (Csv.s_complex df) 0 0 = Ok s11) /\
  Csv.getitem2 (Csv.s_complex df) 0 1 = Raise IndexError.
Proof.
  intros Hwf Htwo Hrows.
  destruct (values df) as [|cells rest] eqn:Hv; [congruence|].
  assert (List.length cells = 2%nat) as Hlen.
  { unfold Frame.wf in Hwf. rewrite Hv in Hwf. inversion Hwf; subst. lia. }
  split; [|split].
  - apply (synthesize_short_rows df cells rest).
    + destruct (columns df); [discriminate | congruence].
    + exact Hv.
    + lia.
  - unfold Csv.s_complex, Frame.iloc_rest. rewrite Hv.
    destruct cells as [|c0 [|c1 [|c2 more]]]; simpl in Hlen; try lia.
    eexists. reflexivity.
  - unfold Csv.s_complex, Frame.iloc_rest. rewrite Hv.
    destruct cells as [|c0 [|c1 [|c2 more]]]; simpl in Hlen; try lia.
    reflexivity.
Qed.

Lemma C10_one_dependent_column_raises_witness :
  Csv.synthesize scenario_df = (Csv.header, Raise IndexError).
Proof.
  apply (C10_one_dependent_column_raises scenario_df).
  - repeat constructor.
  - reflexivity.
  - discriminate.
Defined.

(** ** Selectors out of range and windows (C7, C8) *)

(** C7, as stated, fails at the bound: with port indices counted from 1, as
    the selector [S{i}{j}] counts them, port index 2 on a 2-port network is
    "greater than or equal to N", and [S22] is extracted without error. *)
Lemma C7_port_index_equal_to_count_is_accepted :
  Net.extract log10_double cabs_naive two_port 1 3 ["S22"] Linear =
    Ok [mkTrace "S22" [1; 2; 3] [4; 8; 12]].
Proof. vm_compute. reflexivity. Qed.

(** C7, amended.  A selector one of whose port digits [d] exceeds the port
    count, so that the tensor index [d - 1] is at or beyond it (digit 5 on a
    2-port network, as in [S51]), makes the extraction of that selector
    raise the index error; so does any selection made of it alone, and a
    selection that contains it raises. *)
Theorem C7_port_index_out_of_range
        (np_log10 : float -> float) (np_cabs : complex -> float)
        (net : Network) (scale_option : scale)
        (c0 c1 c2 : ascii) (rest : string) :
  Text.is_digit c1 = true -> Text.is_digit c2 = true ->
  (Z.of_nat (net_nports net) <= Net.digit_value c1 - 1 \/
   Z.of_nat (net_nports net) <= Net.digit_value c2 - 1)%Z ->
  let param := String c0 (String c1 (String c2 rest)) in
  (forall idx_min idx_max,
     Net.extract_one np_log10 np_cabs net idx_min idx_max scale_option param =
       Raise IndexError) /\
  (forall freq_min freq_max, net_f net <> [] ->
     Net.extract np_log10 np_cabs net freq_min freq_max [param] scale_option =
       Raise IndexError) /\
  (forall freq_min freq_max selected, In param selected ->
     exists e, Net.extract np_log10 np_cabs net freq_min freq_max selected scale_option =
                 Raise e).
Proof.
  intros Hd1 Hd2 Hout param.
  assert (forall idx_min idx_max,
            Net.extract_one np_log10 np_cabs net idx_min idx_max scale_option param =
              Raise IndexError) as Hone.
  { intros. now apply NetFacts.extract_one_beyond. }
  split; [exact Hone|]. split.
  - intros freq_min freq_max Hf.
    destruct (NetFacts.resolve_window_ok net freq_min freq_max Hf)
      as (p & k & _ & _ & Hw & _).
    unfold Net.extract. rewrite Hw. simpl. now rewrite Hone.
  - intros freq_min freq_max selected Hin. unfold Net.extract.
    destruct (Net.resolve_window net freq_min freq_max) as [w|e]; simpl; [|now exists e].
    eapply NetFacts.mapM_raises; [exact Hin | apply Hone].
Qed.

Lemma C7_port_index_out_of_range_witness :
  Net.extract log10_double cabs_naive two_port 1 3 ["S51"] dB = Raise IndexError.
Proof.
  apply (C7_port_index_out_of_range log10_double cabs_naive two_port dB
           "S"%char "5"%char "1"%char "").
  - reflexivity.
  - reflexivity.
  - left. vm_compute. discriminate.
  - discriminate.
Defined.

(** C8, as stated, fails on both kinds of window it names: on the 2-port
    network with points at 1, 2 and 3 GHz, the window [10, 20], entirely
    above the file's range, yields the point at 3 GHz, and the reversed
    window [2.1, 1.9] yields the point at 2 GHz; neither result is empty.
    (The reversed window [3, 1] does yield an empty trace.) *)
Lemma C8_window_outside_range_is_not_empty :
  Net.extract log10_double cabs_naive two_port 10 20 ["S21"] Linear =
    Ok [mkTrace "S21" [3] [11]] /\
  Net.extract log10_double cabs_naive two_port 2.1 1.9 ["S21"] Linear =
    Ok [mkTrace "S21" [2] [7]] /\
  Net.extract log10_double cabs_naive two_port 3 1 ["S21"] Linear =
    Ok [mkTrace "S21" [] []].
Proof. repeat split; vm_compute; reflexivity. Qed.

(** ** Control flow (C2) *)

Module AppFacts.

Import App.

Lemma sbind_ok {A B : Type} (a : A) (k : A -> script B) : sbind (lift (Ok a)) k = k a.
Proof. unfold sbind, lift. now destruct (k a). Qed.

Lemma sbind_ret {A B : Type} (a : A) (k : A -> script B) : sbind (ret a) k = k a.
Proof. apply sbind_ok. Qed.

Lemma sbind_raise {A B : Type} (e : exn) (k : A -> script B) :
  sbind (lift (Raise e)) k = ([], Raise e).
Proof. reflexivity. Qed.

Lemma sbind_emit {B : Type} (ev : event) (k : unit -> script B) :
  sbind (emit ev) k = (ev :: fst (k tt), snd (k tt)).
Proof. unfold sbind, emit. now destruct (k tt). Qed.

Lemma sbind_pair {A B : Type} (m : script A) (k : A -> script B) :
  sbind m k =
  match snd m with
  | Ok a => ((fst m ++ fst (k a))%list, snd (k a))
  | Raise e => (fst m, Raise e)
  end.
Proof. destruct m as [evs [a|e]]; simpl; [now destruct (k a) | reflexivity]. Qed.

Section ScriptFacts.

Variable np_log10 : float -> float.
Variable np_cabs : complex -> float.
Variable rf_Network : source -> result Network.

(** The Touchstone block begins by reading the file it is given, never
    ends by an exception, and does nothing of the CSV block. *)
Lemma touchstone_section_events (src : source) (w : Widgets) :
  exists evs,
    touchstone_section np_log10 np_cabs rf_Network src w = (NetworkRead src :: evs, Ok tt) /\
    existsb is_csv_event evs = false.
Proof.
  unfold touchstone_section. rewrite sbind_emit.
  destruct (rf_Network src) as [net|e]; [rewrite sbind_ok | rewrite sbind_raise; simpl; eauto].
  destruct (getitem (net_f net) 0) as [f0|e]; [rewrite sbind_ok | rewrite sbind_raise; simpl; eauto].
  destruct (getlast (net_f net)) as [fl|e]; [rewrite sbind_ok | rewrite sbind_raise; simpl; eauto].
  destruct (getitem (Net.options (net_nports net)) 0) as [o|e];
    [rewrite sbind_ok | rewrite sbind_raise; simpl; eauto].
  destruct (Net.extract _ _ _ _ _ _ _) as [traces|e];
    [rewrite sbind_ok | rewrite sbind_raise; simpl; eauto].
  destruct (match touchstone_selection w with Some l => l | None => [o] end);
    simpl; eauto.
Qed.

(** The CSV block begins with [pd.read_csv] and does nothing of the
    Touchstone block. *)
Lemma csv_section_events (u : Upload) (w : Widgets) :
  exists evs r,
    csv_section np_log10 u w = (CsvRead :: evs, r) /\
    existsb is_network_event evs = false.
Proof.
  unfold csv_section. rewrite sbind_emit.
  destruct (upload_csv u) as [df|e]; [rewrite sbind_ok | rewrite sbind_raise; simpl; eauto].
  destruct (Csv.interpret df) as [xy|e]; [rewrite sbind_ok | rewrite sbind_raise; simpl; eauto].
  destruct (Csv.chart _ _ _ _ _) as [fig|e]; [rewrite sbind_ok | rewrite sbind_raise; simpl; eauto].
  destruct (convert_checkbox w), fig as [g|]; rewrite ?sbind_emit, ?sbind_ret;
    destruct (Csv.synthesize df) as [content [[]|e]]; simpl; eauto.
Qed.

(** When the CSV block ends normally with the checkbox ticked,
    [uploaded_file] is the temporary file, whose content is what the writer
    wrote for the parsed upload. *)
Lemma csv_section_converted (u : Upload) (w : Widgets) (evs : list event) (src : source) :
  csv_section np_log10 u w = (evs, Ok src) -> convert_checkbox w = true ->
  exists df, upload_csv u = Ok df /\
             src = TempFile (fst (Csv.synthesize df)) /\
             snd (Csv.synthesize df) = Ok tt /\
             In (TempFileWritten (fst (Csv.synthesize df))) evs.
Proof.
  unfold csv_section. intros H Hc. rewrite Hc in H. rewrite sbind_emit in H.
  destruct (upload_csv u) as [df|e]; [rewrite sbind_ok in H | discriminate].
  destruct (Csv.interpret df) as [xy|e]; [rewrite sbind_ok in H | discriminate].
  destruct (Csv.chart _ _ _ _ _) as [fig|e]; [rewrite sbind_ok in H | discriminate].
  exists df. split; [reflexivity|].
  destruct fig as [g|]; rewrite ?sbind_emit, ?sbind_ret in H;
    destruct (Csv.synthesize df) as [content [[]|e]]; simpl in H;
    try discriminate; injection H as <- <-; simpl; auto 10.
Qed.

End ScriptFacts.

End AppFacts.

(** C2, as stated, fails on a CSV upload: with the conversion ticked, the
    CSV block draws its chart and writes the temporary file, and the
    Touchstone block then reads that file and draws a second chart; without
    the conversion, the Touchstone block still runs, on the upload itself. *)
Lemma C2_csv_upload_runs_both_paths :
  App.app log10_double cabs_naive parse_synthetic_only
          (Some (App.mkUpload "data.csv" (Ok three_col_df))) (widgets true) =
    ([App.CsvRead;
      App.CsvChart (mkFigure [mkTrace "S11" [1] [0.5]; mkTrace "S21" [1] [0.25]]
                      "freq_ghz" "|S| (dB)");
      App.TempFileWritten (fst (Csv.synthesize three_col_df));
      App.NetworkRead (App.TempFile (fst (Csv.synthesize three_col_df)));
      App.NetworkChart (mkFigure [mkTrace "S11" [1; 2; 3] [1; 5; 9]]
                          "Frequency (GHz)" "Magnitude |S| (Linear)")], Ok tt) /\
  App.app log10_double cabs_naive parse_synthetic_only
          (Some (App.mkUpload "data.csv" (Ok three_col_df))) (widgets false) =
    ([App.CsvRead;
      App.CsvChart (mkFigure [mkTrace "S11" [1] [0.5]; mkTrace "S21" [1] [0.25]]
                      "freq_ghz" "|S| (dB)");
      App.NetworkRead App.Uploaded;
      App.ErrorShown ExternalError], Ok tt) /\
  App.ran_csv_path
    (App.app log10_double cabs_naive parse_synthetic_only
             (Some (App.mkUpload "data.csv" (Ok three_col_df))) (widgets true)) = true /\
  App.ran_network_path
    (App.app log10_double cabs_naive parse_synthetic_only
             (Some (App.mkUpload "data.csv" (Ok three_col_df))) (widgets true)) = true /\
  List.length
    (App.charts
       (App.app log10_double cabs_naive parse_synthetic_only
                (Some (App.mkUpload "data.csv" (Ok three_col_df))) (widgets true))) = 2%nat.
Proof. repeat split; vm_compute; reflexivity. Qed.

(** C2, amended.  The upload is classified by the lower-cased name.  A name
    that does not end in [.csv] runs the Touchstone block alone, on the
    upload.  A name that ends in [.csv] runs the CSV block first; when that
    block ends normally with the conversion ticked, the Touchstone block then
    runs on the temporary file the CSV block wrote, so both blocks run. *)
Theorem C2_paths_by_extension
        (np_log10 : float -> float) (np_cabs : complex -> float)
        (rf_Network : App.source -> result Network)
        (u : App.Upload) (w : App.Widgets) :
  let r := App.app np_log10 np_cabs rf_Network (Some u) w in
  if Text.endswith (Text.lower (App.upload_name u)) ".csv"
  then
    App.ran_csv_path r = true /\
    (forall evs src,
       App.csv_section np_log10 u w = (evs, Ok src) ->
       App.convert_checkbox w = true ->
       exists df,
         App.upload_csv u = Ok df /\
         src = App.TempFile (fst (Csv.synthesize df)) /\
         In (App.TempFileWritten (fst (Csv.synthesize df))) (fst r) /\
         In (App.NetworkRead (App.TempFile (fst (Csv.synthesize df)))) (fst r) /\
         App.ran_network_path r = true)
  else
    App.ran_csv_path r = false /\
    App.ran_network_path r = true /\
    hd_error (fst r) = Some (App.NetworkRead App.Uploaded).
Proof.
  intros r. subst r. unfold App.app.
  destruct (Text.endswith _ _).
  - rewrite AppFacts.sbind_pair. split.
    + destruct (AppFacts.csv_section_events np_log10 u w) as (evs & res & -> & _).
      simpl. now destruct res.
    + intros evs src Hcsv Hconv. rewrite Hcsv. cbn [fst snd].
      destruct (AppFacts.csv_section_converted np_log10 u w evs src Hcsv Hconv)
        as (df & Hdf & -> & _ & Hin).
      destruct (AppFacts.touchstone_section_events np_log10 np_cabs rf_Network
                  (App.TempFile (fst (Csv.synthesize df))) w) as (tevs & -> & _).
      exists df. cbn [fst snd]. repeat split.
      * exact Hdf.
      * apply in_or_app. now left.
      * apply in_or_app. right. now left.
      * unfold App.ran_network_path. cbn [fst]. rewrite existsb_app. simpl.
        apply orb_true_r.
  - rewrite AppFacts.sbind_ret.
    destruct (AppFacts.touchstone_section_events np_log10 np_cabs rf_Network App.Uploaded w)
      as (tevs & -> & Hno).
    unfold App.ran_csv_path, App.ran_network_path. simpl. auto.
Qed.

Lemma C2_paths_by_extension_witness :
  exists df,
    App.upload_csv (App.mkUpload "data.csv" (Ok three_col_df)) = Ok df /\
    In (App.NetworkRead (App.TempFile (fst (Csv.synthesize df))))
       (fst (App.app log10_double cabs_naive parse_synthetic_only
               (Some (App.mkUpload "data.csv" (Ok three_col_df))) (widgets true))).
Proof.
  pose proof (C2_paths_by_extension log10_double cabs_naive parse_synthetic_only
                (App.mkUpload "data.csv" (Ok three_col_df)) (widgets true)) as H.
  cbv zeta in H. change (Text.endswith _ _) with true in H. cbv iota in H.
  destruct H as [_ H].
  destruct (H _ _ eq_refl eq_refl) as (df & Hdf & _ & _ & Hin & _).
  exists df. split; [exact Hdf | exact Hin].
Defined.

(** * Further properties of the script *)

Module CoverFacts.

Import Cover.

Lemma index_of_In (label : string) (labels : list string) :
  In label labels -> exists c, Frame.index_of label labels = Some c.
Proof.
  induction labels as [|l labels IH]; simpl; [contradiction|].
  intros [-> | Hin].
  - rewrite String.eqb_refl. eauto.
  - destruct (String.eqb l label); [eauto|].
    destruct (IH Hin) as (c & ->). simpl. eauto.
Qed.

Lemma index_of_not_In (label : string) (labels : list string) :
  ~ In label labels -> Frame.index_of label labels = None.
Proof.
  induction labels as [|l labels IH]; simpl; [reflexivity|].
  intros Hn. destruct (String.eqb_spec l label) as [-> | _].
  - exfalso. apply Hn. now left.
  - rewrite IH; [reflexivity|]. intros H. apply Hn. now right.
Qed.

Lemma column_present (df : DataFrame) (label : string) :
  In label (columns df) ->
  exists y, Frame.column df label = Ok y /\ List.length y = List.length (values df).
Proof.
  intros Hin. unfold Frame.column.
  destruct (index_of_In _ _ Hin) as (c & ->).
  eexists. split; [reflexivity|]. apply length_map.
Qed.

Lemma column_missing (df : DataFrame) (label : string) :
  ~ In label (columns df) -> Frame.column df label = Raise KeyError.
Proof. intros H. unfold Frame.column. now rewrite (index_of_not_In _ _ H). Qed.

Lemma column_error (df : DataFrame) (label : string) (e : exn) :
  Frame.column df label = Raise e -> e = KeyError.
Proof. unfold Frame.column. destruct (Frame.index_of _ _); congruence. Qed.

(** A loop whose body can only raise [e0] can only raise [e0]. *)
Lemma mapM_error_kind {A B : Type} (f : A -> result B) (e0 : exn) (xs : list A) (e : exn) :
  (forall x e', f x = Raise e' -> e' = e0) -> mapM f xs = Raise e -> e = e0.
Proof.
  intros Hf. induction xs as [|x xs IH]; simpl; [discriminate|].
  destruct (f x) as [y|e'] eqn:Hx; simpl.
  - destruct (mapM f xs) as [ys|e'']; simpl; [discriminate|].
    intros [= <-]. now apply IH.
  - intros [= <-]. eapply Hf, Hx.
Qed.

Lemma select_present (df : DataFrame) (labels : list string) :
  Forall (fun p => In p (columns df)) labels -> exists cols, Frame.select df labels = Ok cols.
Proof.
  intros H. unfold Frame.select.
  destruct (NetFacts.mapM_Forall2 (Frame.column df) (fun _ _ => True) labels) as (cols & Hc & _).
  - eapply Forall_impl; [|exact H]. intros p Hp.
    destruct (column_present df p Hp) as (y & Hy & _). eauto.
  - eauto.
Qed.

(** The chart for labels that are columns of the frame. *)
Lemma chart_present
        (np_log10 : float -> float) (df : DataFrame) (x_col : string)
        (scale_option : scale) (selected : list string) :
  In x_col (columns df) ->
  Forall (fun p => In p (columns df)) selected ->
  selected <> [] ->
  exists x traces,
    Frame.column df x_col = Ok x /\
    Csv.chart np_log10 df x_col scale_option selected =
      Ok (Some (mkFigure traces x_col (Cover.csv_yaxis_title scale_option))) /\
    map trace_name traces = selected /\
    Forall (fun t => trace_x t = x /\
                     Frame.column df (trace_name t) = Ok (trace_y t) /\
                     List.length (trace_y t) = List.length (values df)) traces.
Proof.
  intros Hx Hsel Hne.
  destruct (column_present df x_col Hx) as (x & Hcx & _).
  destruct (select_present df selected Hsel) as (cols & Hcols).
  destruct (NetFacts.mapM_Forall2
              (fun p => y <- Frame.column df p ;; Ok (mkTrace p x y))
              (fun p t => trace_name t = p /\ trace_x t = x /\
                          Frame.column df p = Ok (trace_y t) /\
                          List.length (trace_y t) = List.length (values df))
              selected) as (traces & Htr & HF2).
  { eapply Forall_impl; [|exact Hsel]. intros p Hp.
    destruct (column_present df p Hp) as (y & Hy & Hlen).
    exists (mkTrace p x y). rewrite Hy. simpl. auto. }
  exists x, traces. split; [exact Hcx|]. split; [|split].
  - unfold Csv.chart, Csv.px_line. destruct selected as [|p ps]; [congruence|].
    rewrite Hcols. cbn [Py.bind]. rewrite Hcx. cbn [Py.bind]. rewrite Htr. cbn [Py.bind].
    now destruct scale_option.
  - clear - HF2. induction HF2 as [|p t ps ts (Hn & _) _ IH]; simpl; [reflexivity|].
    now rewrite Hn, IH.
  - clear - HF2. induction HF2 as [|p t ps ts (Hn & Hxx & Hy & Hl) _ IH]; [constructor|].
    constructor; [|exact IH]. rewrite Hn. auto.
Qed.

End CoverFacts.

(** X1.  The CSV chart for labels that are columns of the frame: when the
    x label and every selected label are columns and something is selected,
    the chart is drawn; it has one trace per selected label, in the order
    selected and named after it, each with the x column as its x values and
    the column of its label, one value per row, as its y values; the axis
    titles are the x label and the title of the scale mode. *)
Theorem X1_csv_chart_one_trace_per_label
        (np_log10 : float -> float) (df : DataFrame) (x_col : string)
        (scale_option : scale) (selected : list string) :
  In x_col (columns df) ->
  Forall (fun p => In p (columns df)) selected ->
  selected <> [] ->
  exists x traces,
    Frame.column df x_col = Ok x /\
    Csv.chart np_log10 df x_col scale_option selected =
      Ok (Some (mkFigure traces x_col (Cover.csv_yaxis_title scale_option))) /\
    map trace_name traces = selected /\
    Forall (fun t => trace_x t = x /\
                     Frame.column df (trace_name t) = Ok (trace_y t) /\
                     List.length (trace_y t) = List.length (values df)) traces.
Proof. apply CoverFacts.chart_present. Qed.

Lemma X1_csv_chart_one_trace_per_label_witness :
  exists x traces,
    Frame.column Samples.three_col_df "freq_ghz" = Ok x /\
    Csv.chart Samples.log10_double Samples.three_col_df "freq_ghz" dB ["S21"; "S11"] =
      Ok (Some (mkFigure traces "freq_ghz" (Cover.csv_yaxis_title dB))) /\
    map trace_name traces = ["S21"; "S11"] /\
    Forall (fun t => trace_x t = x /\
                     Frame.column Samples.three_col_df (trace_name t) = Ok (trace_y t) /\
                     List.length (trace_y t) = List.length (values Samples.three_col_df))
           traces.
Proof.
  apply (X1_csv_chart_one_trace_per_label Samples.log10_double Samples.three_col_df
           "freq_ghz" dB ["S21"; "S11"]).
  - simpl. auto.
  - repeat (apply Forall_cons; [simpl; auto 10|]). apply Forall_nil.
  - discriminate.
Defined.

(** X2.  A selected label that is not a column of the frame: the chart step
    raises the key error, whatever else is selected and whatever the scale,
    and no chart is drawn. *)
Theorem X2_csv_chart_unknown_label
        (np_log10 : float -> float) (df : DataFrame) (x_col : string)
        (scale_option : scale) (selected : list string) (p : string) :
  In p selected -> ~ In p (columns df) ->
  Csv.chart np_log10 df x_col scale_option selected = Raise KeyError.
Proof.
  intros Hin Hmiss. unfold Csv.chart.
  destruct selected as [|q qs]; [contradiction|].
  destruct (NetFacts.mapM_raises (Frame.column df) (q :: qs) p KeyError Hin
              (CoverFacts.column_missing df p Hmiss)) as (e & He).
  unfold Frame.select. rewrite He.
  rewrite (CoverFacts.mapM_error_kind (Frame.column df) KeyError (q :: qs) e
             (CoverFacts.column_error df) He).
  reflexivity.
Qed.

Lemma X2_csv_chart_unknown_label_witness :
  Csv.chart Samples.log10_double Samples.three_col_df "freq_ghz" dB ["S11"; "S31"] =
    Raise KeyError.
Proof.
  apply (X2_csv_chart_unknown_label Samples.log10_double Samples.three_col_df
           "freq_ghz" dB ["S11"; "S31"] "S31").
  - simpl. auto.
  - simpl. intros [H | [H | [H | []]]]; discriminate.
Defined.

(** ** Control flow of the two blocks *)

Module ScriptFacts.

Import App Cover.

Ltac error_shown :=
  simpl; eexists; split; [reflexivity|];
  split; [right; left; eexists; reflexivity | try reflexivity; try exact I].

Section Blocks.

Variable np_log10 : float -> float.
Variable np_cabs : complex -> float.
Variable rf_Network : source -> result Network.

(** The shape of every run of the Touchstone block. *)
Lemma touchstone_section_shape (src : source) (w : Widgets) :
  exists tail,
    touchstone_section np_log10 np_cabs rf_Network src w = (NetworkRead src :: tail, Ok tt) /\
    touchstone_outcome tail /\
    match rf_Network src with
    | Raise e => tail = [ErrorShown e]
    | Ok net =>
        match net_f net with
        | [] => tail = [ErrorShown IndexError]
        | _ :: _ => True
        end
    end.
Proof.
  unfold touchstone_section, touchstone_outcome. rewrite AppFacts.sbind_emit.
  destruct (rf_Network src) as [net|e];
    [rewrite AppFacts.sbind_ok | rewrite AppFacts.sbind_raise; error_shown].
  destruct (net_f net) as [|f0 fs] eqn:Hf.
  { change (getitem (@nil float) 0) with (@Raise float IndexError).
    rewrite AppFacts.sbind_raise. error_shown. }
  change (getitem (f0 :: fs) 0) with (Ok f0). rewrite AppFacts.sbind_ok.
  destruct (getlast (f0 :: fs)) as [fl|e];
    [rewrite AppFacts.sbind_ok | rewrite AppFacts.sbind_raise; error_shown].
  destruct (getitem (Net.options (net_nports net)) 0) as [o|e];
    [rewrite AppFacts.sbind_ok | rewrite AppFacts.sbind_raise; error_shown].
  destruct (Net.extract _ _ _ _ _ _ _) as [traces|e];
    [rewrite AppFacts.sbind_ok | rewrite AppFacts.sbind_raise; error_shown].
  destruct (match touchstone_selection w with Some l => l | None => [o] end); simpl.
  - exists []. auto.
  - eexists. split; [reflexivity|]. split; [|exact I]. right. right. eexists. reflexivity.
Qed.

End Blocks.

End ScriptFacts.

Module BlockFacts.

Import App Cover.

Lemma csv_section_only_csv_events (np_log10 : float -> float) (u : Upload) (w : Widgets) :
  forallb is_csv_event (fst (csv_section np_log10 u w)) = true.
Proof.
  unfold csv_section. rewrite AppFacts.sbind_emit.
  destruct (upload_csv u) as [df|e];
    [rewrite AppFacts.sbind_ok | rewrite AppFacts.sbind_raise; reflexivity].
  destruct (Csv.interpret df) as [xy|e];
    [rewrite AppFacts.sbind_ok | rewrite AppFacts.sbind_raise; reflexivity].
  destruct (Csv.chart _ _ _ _ _) as [fig|e];
    [rewrite AppFacts.sbind_ok | rewrite AppFacts.sbind_raise; reflexivity].
  destruct (convert_checkbox w), fig as [g|]; rewrite ?AppFacts.sbind_emit, ?AppFacts.sbind_ret;
    destruct (Csv.synthesize df) as [content [[]|e]]; reflexivity.
Qed.

Lemma csv_events_no_network (evs : list event) :
  forallb is_csv_event evs = true ->
  existsb is_network_event evs = false /\
  existsb (fun ev => match ev with ErrorShown _ => true | _ => false end) evs = false.
Proof.
  induction evs as [|ev evs IH]; simpl; [auto|].
  intros H. apply andb_true_iff in H as [Hev Hevs].
  destruct (IH Hevs) as [-> ->]. destruct ev; simpl in *; auto; discriminate.
Qed.

Lemma csv_section_not_converted (np_log10 : float -> float) (u : Upload) (w : Widgets)
      (evs : list event) (src : source) :
  csv_section np_log10 u w = (evs, Ok src) -> convert_checkbox w = false -> src = Uploaded.
Proof.
  unfold csv_section. intros H Hc. rewrite Hc in H. rewrite AppFacts.sbind_emit in H.
  destruct (upload_csv u) as [df|e]; [rewrite AppFacts.sbind_ok in H | discriminate].
  destruct (Csv.interpret df) as [xy|e]; [rewrite AppFacts.sbind_ok in H | discriminate].
  destruct (Csv.chart _ _ _ _ _) as [fig|e]; [rewrite AppFacts.sbind_ok in H | discriminate].
  destruct fig as [g|]; rewrite ?AppFacts.sbind_emit, ?AppFacts.sbind_ret in H;
    simpl in H; congruence.
Qed.

Lemma length_append (a b : string) :
  String.length (a ++ b) = (String.length a + String.length b)%nat.
Proof. induction a as [|c a IH]; simpl; [reflexivity | now rewrite IH]. Qed.

Lemma substring_all (b : string) : substring 0 (String.length b) b = b.
Proof. induction b as [|c b IH]; simpl; [reflexivity | now rewrite IH]. Qed.

Lemma substring_suffix (a b : string) :
  substring (String.length a) (String.length b) (a ++ b) = b.
Proof. induction a as [|c a IH]; simpl; [apply substring_all | exact IH]. Qed.

Lemma endswith_append (a b : string) : Text.endswith (a ++ b) b = true.
Proof.
  unfold Text.endswith. rewrite length_append.
  replace (String.length a + String.length b - String.length b)%nat
    with (String.length a) by lia.
  rewrite substring_suffix, String.eqb_refl.
  destruct (Nat.leb_spec (String.length b) (String.length a + String.length b));
    [reflexivity | lia].
Qed.

Lemma lower_append (a b : string) : Text.lower (a ++ b) = Text.lower a ++ Text.lower b.
Proof. induction a as [|c a IH]; simpl; [reflexivity | now rewrite IH]. Qed.

End BlockFacts.

(** X3.  The CSV block with the multiselect left at its default and the
    conversion unticked, on a parsed upload with at least one dependent
    column: it never raises; it draws one chart, with one trace per dependent
    column, in file order and named after it, each with column 0 as x
    values and one y value per row; [uploaded_file] stays the upload. *)
Theorem X3_csv_default_selection_plots_every_dependent_column
        (np_log10 : float -> float) (u : App.Upload) (w : App.Widgets)
        (df : DataFrame) (x_col : string) (y_cols : list string) :
  App.upload_csv u = Ok df -> columns df = x_col :: y_cols -> y_cols <> [] ->
  App.csv_selection w = None -> App.convert_checkbox w = false ->
  exists x traces,
    Frame.column df x_col = Ok x /\
    App.csv_section np_log10 u w =
      ([App.CsvRead;
        App.CsvChart (mkFigure traces x_col (Cover.csv_yaxis_title (App.csv_scale w)))],
       Ok App.Uploaded) /\
    map trace_name traces = y_cols /\
    Forall (fun t => trace_x t = x /\
                     Frame.column df (trace_name t) = Ok (trace_y t) /\
                     List.length (trace_y t) = List.length (values df)) traces.
Proof.
  intros Hdf Hcols Hne Hsel Hconv.
  destruct (CoverFacts.chart_present np_log10 df x_col (App.csv_scale w) y_cols)
    as (x & traces & Hx & Hchart & Hnames & Hall).
  - rewrite Hcols. now left.
  - apply Forall_forall. intros p Hp. rewrite Hcols. now right.
  - exact Hne.
  - exists x, traces. repeat split; try assumption.
    unfold App.csv_section. rewrite AppFacts.sbind_emit, Hdf, AppFacts.sbind_ok.
    unfold Csv.interpret. rewrite Hcols. cbn [getitem nth_error Py.bind skipn].
    rewrite AppFacts.sbind_ok. cbn [fst snd]. rewrite Hsel, Hchart, AppFacts.sbind_ok.
    rewrite AppFacts.sbind_emit, Hconv. reflexivity.
Qed.

Lemma X3_csv_default_selection_plots_every_dependent_column_witness :
  exists x traces,
    Frame.column Samples.three_col_df "freq_ghz" = Ok x /\
    App.csv_section Samples.log10_double (App.mkUpload "data.csv" (Ok Samples.three_col_df))
                    (Samples.widgets false) =
      ([App.CsvRead;
        App.CsvChart (mkFigure traces "freq_ghz"
                        (Cover.csv_yaxis_title (App.csv_scale (Samples.widgets false))))],
       Ok App.Uploaded) /\
    map trace_name traces = ["S11"; "S21"] /\
    Forall (fun t => trace_x t = x /\
                     Frame.column Samples.three_col_df (trace_name t) = Ok (trace_y t) /\
                     List.length (trace_y t) = List.length (values Samples.three_col_df))
           traces.
Proof.
  apply (X3_csv_default_selection_plots_every_dependent_column Samples.log10_double
           (App.mkUpload "data.csv" (Ok Samples.three_col_df)) (Samples.widgets false)
           Samples.three_col_df "freq_ghz" ["S11"; "S21"]);
    solve [reflexivity | discriminate].
Defined.

(** X4.  The Touchstone block never ends by an exception.  After reading
    its file it does exactly one of three things: it draws nothing (an empty
    selection), it shows one error, or it draws one chart.  When
    [rf.Network] rejects the file the error shown is the parser's, and a
    network without frequency points shows the index error of [net.f[0]]. *)
Theorem X4_touchstone_block_catches_every_exception
        (np_log10 : float -> float) (np_cabs : complex -> float)
        (rf_Network : App.source -> result Network)
        (src : App.source) (w : App.Widgets) :
  exists tail,
    App.touchstone_section np_log10 np_cabs rf_Network src w =
      (App.NetworkRead src :: tail, Ok tt) /\
    Cover.touchstone_outcome tail /\
    match rf_Network src with
    | Raise e => tail = [App.ErrorShown e]
    | Ok net =>
        match net_f net with
        | [] => tail = [App.ErrorShown IndexError]
        | _ :: _ => True
        end
    end.
Proof. apply ScriptFacts.touchstone_section_shape. Qed.

(** X5.  An exception raised in the CSV block is not caught: the run ends
    with it, after the events of the CSV block alone; the Touchstone block
    does not run and no error message is shown. *)
Theorem X5_csv_block_exception_ends_the_run
        (np_log10 : float -> float) (np_cabs : complex -> float)
        (rf_Network : App.source -> result Network)
        (u : App.Upload) (w : App.Widgets) (evs : list App.event) (e : exn) :
  Text.endswith (Text.lower (App.upload_name u)) ".csv" = true ->
  App.csv_section np_log10 u w = (evs, Raise e) ->
  App.app np_log10 np_cabs rf_Network (Some u) w = (evs, Raise e) /\
  App.ran_network_path (App.app np_log10 np_cabs rf_Network (Some u) w) = false /\
  existsb (fun ev => match ev with App.ErrorShown _ => true | _ => false end) evs = false.
Proof.
  intros Hname Hcsv.
  assert (App.app np_log10 np_cabs rf_Network (Some u) w = (evs, Raise e)) as Happ.
  { unfold App.app. rewrite Hname, Hcsv. reflexivity. }
  pose proof (BlockFacts.csv_section_only_csv_events np_log10 u w) as Hev.
  rewrite Hcsv in Hev. cbn [fst] in Hev.
  destruct (BlockFacts.csv_events_no_network evs Hev) as [Hnet Herr].
  rewrite Happ. unfold App.ran_network_path. cbn [fst]. auto.
Qed.

Lemma X5_csv_block_exception_ends_the_run_witness :
  App.app Samples.log10_double Samples.cabs_naive Samples.parse_synthetic_only
          (Some (App.mkUpload "data.csv" (Ok Samples.scenario_df))) (Samples.widgets true) =
    (fst (App.csv_section Samples.log10_double
            (App.mkUpload "data.csv" (Ok Samples.scenario_df)) (Samples.widgets true)),
     Raise IndexError).
Proof.
  apply (X5_csv_block_exception_ends_the_run Samples.log10_double Samples.cabs_naive
           Samples.parse_synthetic_only
           (App.mkUpload "data.csv" (Ok Samples.scenario_df)) (Samples.widgets true)).
  - reflexivity.
  - vm_compute. reflexivity.
Defined.

(** X6.  A CSV upload whose conversion is not ticked: when the CSV block
    ends normally, [uploaded_file] is still the upload, and the Touchstone
    block runs on it; if [rf.Network] rejects the CSV, the run ends normally
    with that one error shown after the events of the CSV block. *)
Theorem X6_csv_without_conversion_goes_to_the_parser
        (np_log10 : float -> float) (np_cabs : complex -> float)
        (rf_Network : App.source -> result Network)
        (u : App.Upload) (w : App.Widgets) (evs : list App.event) (src : App.source) :
  Text.endswith (Text.lower (App.upload_name u)) ".csv" = true ->
  App.csv_section np_log10 u w = (evs, Ok src) ->
  App.convert_checkbox w = false ->
  src = App.Uploaded /\
  exists tail,
    App.app np_log10 np_cabs rf_Network (Some u) w =
      ((evs ++ App.NetworkRead App.Uploaded :: tail)%list, Ok tt) /\
    Cover.touchstone_outcome tail /\
    match rf_Network App.Uploaded with
    | Raise e => tail = [App.ErrorShown e]
    | Ok _ => True
    end.
Proof.
  intros Hname Hcsv Hconv.
  pose proof (BlockFacts.csv_section_not_converted np_log10 u w evs src Hcsv Hconv) as ->.
  split; [reflexivity|].
  destruct (ScriptFacts.touchstone_section_shape np_log10 np_cabs rf_Network App.Uploaded w)
    as (tail & Ht & Hout & Hrej).
  exists tail. split; [|split; [exact Hout|]].
  - unfold App.app. rewrite Hname, AppFacts.sbind_pair, Hcsv. cbn [fst snd].
    now rewrite Ht.
  - destruct (rf_Network App.Uploaded); [exact I | exact Hrej].
Qed.

Lemma X6_csv_without_conversion_goes_to_the_parser_witness :
  exists tail,
    App.app Samples.log10_double Samples.cabs_naive Samples.parse_synthetic_only
            (Some (App.mkUpload "data.csv" (Ok Samples.three_col_df))) (Samples.widgets false) =
      ((fst (App.csv_section Samples.log10_double
               (App.mkUpload "data.csv" (Ok Samples.three_col_df)) (Samples.widgets false))
        ++ App.NetworkRead App.Uploaded :: tail)%list, Ok tt) /\
    Cover.touchstone_outcome tail /\
    match Samples.parse_synthetic_only App.Uploaded with
    | Raise e => tail = [App.ErrorShown e]
    | Ok _ => True
    end.
Proof.
  apply (X6_csv_without_conversion_goes_to_the_parser Samples.log10_double Samples.cabs_naive
           Samples.parse_synthetic_only
           (App.mkUpload "data.csv" (Ok Samples.three_col_df)) (Samples.widgets false)
           _ App.Uploaded).
  - reflexivity.
  - vm_compute. reflexivity.
  - reflexivity.
Defined.

(** X7.  The upload is classified whatever the letter case of its
    extension: a name whose last characters lower-case to [.csv] passes the
    test of line 24, and the CSV block runs for it. *)
Theorem X7_classification_ignores_letter_case
        (np_log10 : float -> float) (np_cabs : complex -> float)
        (rf_Network : App.source -> result Network)
        (stem ext : string) (csv : result DataFrame) (w : App.Widgets) :
  Text.lower ext = ".csv" ->
  Text.endswith (Text.lower (stem ++ ext)) ".csv" = true /\
  App.ran_csv_path
    (App.app np_log10 np_cabs rf_Network (Some (App.mkUpload (stem ++ ext) csv)) w) = true.
Proof.
  intros Hext.
  assert (Text.endswith (Text.lower (stem ++ ext)) ".csv" = true) as Hname.
  { rewrite BlockFacts.lower_append, Hext. apply BlockFacts.endswith_append. }
  split; [exact Hname|].
  unfold App.app. cbn [App.upload_name]. rewrite Hname, AppFacts.sbind_pair.
  destruct (AppFacts.csv_section_events np_log10 (App.mkUpload (stem ++ ext) csv) w)
    as (evs & res & -> & _).
  unfold App.ran_csv_path. cbn [fst snd]. now destruct res.
Qed.

Lemma X7_classification_ignores_letter_case_witness :
  Text.endswith (Text.lower ("Antenna" ++ ".CsV")) ".csv" = true.
Proof.
  apply (X7_classification_ignores_letter_case Samples.log10_double Samples.cabs_naive
           Samples.parse_synthetic_only "Antenna" ".CsV" (Ok Samples.three_col_df)
           (Samples.widgets false)).
  reflexivity.
Defined.

(** ** Selectors and the option list *)

Module SelectorFacts.

Import Cover.

Lemma decimal_single_digit (k : nat) :
  (1 <= k <= 9)%nat ->
  Fmt.decimal (N.of_nat k) = String (Fmt.digit_char (Z.of_nat k)) "".
Proof.
  intros H.
  assert (k = 1 \/ k = 2 \/ k = 3 \/ k = 4 \/ k = 5 \/ k = 6 \/ k = 7 \/ k = 8 \/ k = 9)%nat
    as Hk by lia.
  repeat (destruct Hk as [-> | Hk]; [reflexivity|]). now subst.
Qed.

Lemma digit_value_digit_char (d : Z) :
  (0 <= d < 10)%Z -> Net.digit_value (Fmt.digit_char d) = d.
Proof.
  intros H.
  assert (d = 0 \/ d = 1 \/ d = 2 \/ d = 3 \/ d = 4 \/ d = 5 \/ d = 6 \/ d = 7 \/
          d = 8 \/ d = 9)%Z as Hd by lia.
  repeat (destruct Hd as [-> | Hd]; [reflexivity|]). now subst.
Qed.

Lemma option_label_digits (i j : nat) :
  (i < 9)%nat -> (j < 9)%nat ->
  option_label i j =
  String "S"%char (String (Fmt.digit_char (Z.of_nat (i + 1)))
                     (String (Fmt.digit_char (Z.of_nat (j + 1))) "")).
Proof.
  intros Hi Hj. unfold option_label.
  rewrite !decimal_single_digit by lia. reflexivity.
Qed.

Lemma flat_map_length_const {A B : Type} (f : A -> list B) (k : nat) (xs : list A) :
  (forall x, List.length (f x) = k) ->
  List.length (flat_map f xs) = (List.length xs * k)%nat.
Proof.
  intros Hf. induction xs as [|x xs IH]; simpl; [reflexivity|].
  now rewrite length_app, Hf, IH.
Qed.

Section Selectors.

Variable np_log10 : float -> float.
Variable np_cabs : complex -> float.

(** The trace the loop body builds once both digits are read as the axis
    indices [i] and [j]. *)
Lemma extract_one_digits (net : Network) (idx_min idx_max : nat) (scale_option : scale)
      (c0 c1 c2 : ascii) (rest : string) (i j : nat) :
  Text.is_digit c1 = true -> Text.is_digit c2 = true ->
  Net.axis_index (net_nports net) (Net.digit_value c1 - 1) = Ok i ->
  Net.axis_index (net_nports net) (Net.digit_value c2 - 1) = Ok j ->
  Net.extract_one np_log10 np_cabs net idx_min idx_max scale_option
                  (String c0 (String c1 (String c2 rest))) =
  Ok (let t := mkTrace (String c0 (String c1 (String c2 rest)))
                       (slice_ghz net idx_min idx_max)
                       (entry_magnitudes np_cabs net idx_min idx_max i j) in
      match scale_option with
      | dB => to_dB np_log10 t
      | Linear => t
      end).
Proof.
  intros Hd1 Hd2 Hi Hj.
  unfold Net.extract_one, Net.char_at, Net.int_of_char, Net.magnitudes.
  cbn [String.get Py.bind]. rewrite Hd1, Hd2. cbn [Py.bind]. rewrite Hi, Hj. cbn [Py.bind].
  now destruct scale_option.
Qed.

Lemma extract_one_dB_of_linear (net : Network) (idx_min idx_max : nat) (param : string) :
  Net.extract_one np_log10 np_cabs net idx_min idx_max dB param =
  result_map (to_dB np_log10)
             (Net.extract_one np_log10 np_cabs net idx_min idx_max Linear param).
Proof.
  unfold Net.extract_one.
  destruct (Net.char_at param 1) as [c1|]; simpl; [|reflexivity].
  destruct (Net.int_of_char c1) as [d1|]; simpl; [|reflexivity].
  destruct (Net.char_at param 2) as [c2|]; simpl; [|reflexivity].
  destruct (Net.int_of_char c2) as [d2|]; simpl; [|reflexivity].
  destruct (Net.magnitudes _ _ _ _ _ _) as [y|]; reflexivity.
Qed.

Lemma mapM_result_map {A B C : Type} (f : A -> result B) (g : B -> C) (xs : list A) :
  mapM (fun x => result_map g (f x)) xs = result_map (map g) (mapM f xs).
Proof.
  induction xs as [|x xs IH]; simpl; [reflexivity|].
  destruct (f x) as [y|e]; simpl; [|reflexivity].
  rewrite IH. destruct (mapM f xs); reflexivity.
Qed.

Lemma mapM_ext {A B : Type} (f g : A -> result B) (xs : list A) :
  (forall x, f x = g x) -> mapM f xs = mapM g xs.
Proof.
  intros H. induction xs as [|x xs IH]; simpl; [reflexivity|]. now rewrite H, IH.
Qed.

End Selectors.

End SelectorFacts.

(** X8.  The option list of line 100 for an [n]-port network has [n*n]
    labels and holds the label of every port pair; up to nine ports, every
    label offered is a selector in range. *)
Theorem X8_options_cover_every_port_pair (n : nat) :
  List.length (Net.options n) = (n * n)%nat /\
  (forall i j, (i < n)%nat -> (j < n)%nat -> In (Cover.option_label i j) (Net.options n)) /\
  ((n <= 9)%nat ->
   Forall (fun p => Net.selector_in_range n p = true) (Net.options n)).
Proof.
  split; [|split].
  - unfold Net.options.
    rewrite (SelectorFacts.flat_map_length_const _ n); [now rewrite length_seq|].
    intros i. now rewrite length_map, length_seq.
  - intros i j Hi Hj. unfold Net.options. apply in_flat_map.
    exists i. split; [apply in_seq; lia|].
    apply in_map_iff. exists j. split; [reflexivity | apply in_seq; lia].
  - intros Hn. apply Forall_forall. intros p Hp.
    unfold Net.options in Hp. apply in_flat_map in Hp as (i & Hi & Hp).
    apply in_map_iff in Hp as (j & <- & Hj).
    apply in_seq in Hi, Hj.
    fold (Cover.option_label i j).
    rewrite SelectorFacts.option_label_digits by lia.
    unfold Net.selector_in_range.
    rewrite !FmtFacts.digit_char_is_digit, !SelectorFacts.digit_value_digit_char by lia.
    simpl andb.
    repeat match goal with
           | |- context [(?a <=? ?b)%Z] => destruct (Z.leb_spec a b); [|lia]
           end.
    reflexivity.
Qed.

Lemma X8_options_cover_every_port_pair_witness :
  Forall (fun p => Net.selector_in_range 4 p = true) (Net.options 4).
Proof.
  apply (X8_options_cover_every_port_pair 4). lia.
Defined.

(** X9.  Label and loop agree up to nine ports: for ports [i, j] of an
    [n]-port network with [n <= 9], the label built on line 100 is read back
    by lines 113-114 as the tensor indices [(i, j)]; the loop body does not
    raise and returns the trace named by the label, over the frequencies of
    the slice in GHz, holding the magnitudes of entry [(i, j)], taken to dB
    when the scale is dB. *)
Theorem X9_offered_label_selects_its_entry
        (np_log10 : float -> float) (np_cabs : complex -> float)
        (net : Network) (idx_min idx_max : nat) (scale_option : scale) (i j : nat) :
  (net_nports net <= 9)%nat -> (i < net_nports net)%nat -> (j < net_nports net)%nat ->
  Net.extract_one np_log10 np_cabs net idx_min idx_max scale_option (Cover.option_label i j) =
  Ok (let t := mkTrace (Cover.option_label i j)
                       (Cover.slice_ghz net idx_min idx_max)
                       (Cover.entry_magnitudes np_cabs net idx_min idx_max i j) in
      match scale_option with
      | dB => Cover.to_dB np_log10 t
      | Linear => t
      end).
Proof.
  intros Hn Hi Hj.
  rewrite SelectorFacts.option_label_digits by lia.
  apply SelectorFacts.extract_one_digits.
  - apply FmtFacts.digit_char_is_digit. lia.
  - apply FmtFacts.digit_char_is_digit. lia.
  - rewrite SelectorFacts.digit_value_digit_char by lia.
    rewrite NetFacts.axis_index_in_range by lia. f_equal. lia.
  - rewrite SelectorFacts.digit_value_digit_char by lia.
    rewrite NetFacts.axis_index_in_range by lia. f_equal. lia.
Qed.

Lemma X9_offered_label_selects_its_entry_witness :
  Net.extract_one Samples.log10_double Samples.cabs_naive Samples.two_port 0 3 Linear
                  (Cover.option_label 1 0) =
  Ok (mkTrace "S21" [1; 2; 3] [3; 7; 11]).
Proof.
  rewrite (X9_offered_label_selects_its_entry Samples.log10_double Samples.cabs_naive
             Samples.two_port 0 3 Linear 1 0); [reflexivity | simpl; lia ..].
Defined.

(** X10.  A port digit [0] is not rejected: [int(param[1]) - 1] is [-1],
    which numpy counts from the end, so the selector reads the last port.
    On a network with at least one port, a selector whose first port digit
    is [0] and whose second is in range returns the magnitudes of row
    [nports - 1]. *)
Theorem X10_port_digit_zero_reads_the_last_port
        (np_log10 : float -> float) (np_cabs : complex -> float)
        (net : Network) (idx_min idx_max : nat) (c0 c2 : ascii) (rest : string) :
  (1 <= net_nports net)%nat ->
  Text.is_digit c2 = true ->
  (1 <= Net.digit_value c2 <= Z.of_nat (net_nports net))%Z ->
  Net.extract_one np_log10 np_cabs net idx_min idx_max Linear
                  (String c0 (String "0"%char (String c2 rest))) =
  Ok (mkTrace (String c0 (String "0"%char (String c2 rest)))
              (Cover.slice_ghz net idx_min idx_max)
              (Cover.entry_magnitudes np_cabs net idx_min idx_max
                 (net_nports net - 1) (Z.to_nat (Net.digit_value c2 - 1)))).
Proof.
  intros Hn Hd2 Hr.
  apply (SelectorFacts.extract_one_digits np_log10 np_cabs net idx_min idx_max Linear
           c0 "0"%char c2 rest).
  - reflexivity.
  - exact Hd2.
  - change (Net.digit_value "0"%char - 1)%Z with (-1)%Z. unfold Net.axis_index.
    change ((0 <=? -1)%Z) with false. cbn [andb].
    destruct (Z.leb_spec (- Z.of_nat (net_nports net)) (-1)); [|lia].
    change ((-1 <? 0)%Z) with true. cbn [andb]. f_equal. lia.
  - now apply NetFacts.axis_index_in_range.
Qed.

Lemma X10_port_digit_zero_reads_the_last_port_witness :
  Net.extract_one Samples.log10_double Samples.cabs_naive Samples.two_port 0 3 Linear "S01" =
  Ok (mkTrace "S01" [1; 2; 3] [3; 7; 11]).
Proof.
  rewrite (X10_port_digit_zero_reads_the_last_port Samples.log10_double Samples.cabs_naive
             Samples.two_port 0 3 "S"%char "1"%char "");
    [reflexivity | simpl; lia | reflexivity | vm_compute; split; discriminate].
Defined.

(** X11.  Selectors the loop cannot read.  A selector of fewer than two
    characters raises the index error of [param[1]]; a selector whose second
    character is not a digit raises the value error of [int]; when the second
    is a digit, a selector of two characters raises the index error of
    [param[2]] and one whose third character is not a digit raises the value
    error.  The network is not consulted. *)
Theorem X11_unreadable_selectors
        (np_log10 : float -> float) (np_cabs : complex -> float)
        (net : Network) (idx_min idx_max : nat) (scale_option : scale)
        (c0 c1 c2 : ascii) (rest : string) :
  Net.extract_one np_log10 np_cabs net idx_min idx_max scale_option "" = Raise IndexError /\
  Net.extract_one np_log10 np_cabs net idx_min idx_max scale_option (String c0 "") =
    Raise IndexError /\
  (Text.is_digit c1 = false ->
   Net.extract_one np_log10 np_cabs net idx_min idx_max scale_option
                   (String c0 (String c1 rest)) = Raise ValueError) /\
  (Text.is_digit c1 = true ->
   Net.extract_one np_log10 np_cabs net idx_min idx_max scale_option
                   (String c0 (String c1 "")) = Raise IndexError) /\
  (Text.is_digit c1 = true -> Text.is_digit c2 = false ->
   Net.extract_one np_log10 np_cabs net idx_min idx_max scale_option
                   (String c0 (String c1 (String c2 rest))) = Raise ValueError).
Proof.
  unfold Net.extract_one, Net.char_at, Net.int_of_char. cbn [String.get Py.bind].
  repeat split; try reflexivity.
  - now intros ->.
  - now intros ->.
  - now intros -> ->.
Qed.

Lemma X11_unreadable_selectors_witness :
  Net.extract_one Samples.log10_double Samples.cabs_naive Samples.two_port 0 3 dB "Sx1" =
    Raise ValueError /\
  Net.extract_one Samples.log10_double Samples.cabs_naive Samples.two_port 0 3 dB "S1" =
    Raise IndexError /\
  Net.extract_one Samples.log10_double Samples.cabs_naive Samples.two_port 0 3 dB "S1-" =
    Raise ValueError.
Proof.
  destruct (X11_unreadable_selectors Samples.log10_double Samples.cabs_naive Samples.two_port
              0 3 dB "S"%char "x"%char "1"%char "") as (_ & _ & Hx & _ & _).
  destruct (X11_unreadable_selectors Samples.log10_double Samples.cabs_naive Samples.two_port
              0 3 dB "S"%char "1"%char "-"%char "") as (_ & _ & _ & Hshort & Hdash).
  split; [apply Hx; reflexivity|].
  split; [apply Hshort; reflexivity | apply Hdash; reflexivity].
Defined.

(** X12.  The scale mode of the Touchstone block changes the y values and
    nothing else: whatever the network, window and selection, the run in dB
    raises exactly when the run in Linear raises, with the same exception,
    and otherwise returns the Linear traces with every y value [v] replaced
    by [20 * log10 v]: same names, same order, same x values. *)
Theorem X12_dB_traces_are_the_linear_traces_rescaled
        (np_log10 : float -> float) (np_cabs : complex -> float)
        (net : Network) (freq_min freq_max : float) (selected : list string) :
  Net.extract np_log10 np_cabs net freq_min freq_max selected dB =
  Cover.result_map (map (Cover.to_dB np_log10))
                   (Net.extract np_log10 np_cabs net freq_min freq_max selected Linear).
Proof.
  unfold Net.extract.
  destruct (Net.resolve_window net freq_min freq_max) as [win|e]; simpl; [|reflexivity].
  rewrite <- SelectorFacts.mapM_result_map.
  apply SelectorFacts.mapM_ext. intros p.
  apply SelectorFacts.extract_one_dB_of_linear.
Qed.

(** ** Exact zeros in binary64 *)

Module ZeroFacts.

Lemma sub_self (x : float) : is_finite x = true -> x - x = 0.
Proof.
  intros H. apply Prim2SF_inj. rewrite sub_spec.
  change (Prim2SF 0) with (S754_zero false).
  destruct (FmtFacts.Prim2SF_finite x H) as [[s ->] | (s & m & e & ->)].
  - now destruct s.
  - unfold SF64sub, SFsub. cbv zeta. now rewrite Z.sub_diag.
Qed.

Lemma times_zero_plus_zero (m : float) : is_finite m = true -> m * 0 + 0 * 1 = 0.
Proof.
  intros H. apply Prim2SF_inj. rewrite add_spec, mul_spec.
  change (Prim2SF (0 * 1)) with (S754_zero false).
  change (Prim2SF 0) with (S754_zero false).
  destruct (FmtFacts.Prim2SF_finite m H) as [[s ->] | (s & mm & e & ->)];
    now destruct s.
Qed.

Lemma zero_leb_abs (y : float) : is_nan (abs y) = false -> (0 <=? abs y) = true.
Proof.
  intros H. apply FloatOrder.not_nan_spec in H. revert H.
  rewrite leb_spec, abs_spec.
  change (Prim2SF 0) with (S754_zero false).
  destruct (Prim2SF y) as [s | s | | s m e]; simpl; try reflexivity; congruence.
Qed.

Lemma argmin_from_keeps_zero (xs : list float) (best i : nat) :
  Forall (fun d => (0 <=? d) = true) xs -> Net.argmin_from 0 best i xs = best.
Proof.
  intros H. revert i. induction H as [|x xs Hx _ IH]; intros i; simpl; [reflexivity|].
  rewrite Hx. simpl. apply IH.
Qed.

End ZeroFacts.

(** X13.  The lower handle of the slider at its minimum, [net.f[0]/1e9],
    as it is when the slider is untouched: if that value is finite and no
    distance to it is NaN, the window starts at index 0 whatever the upper
    handle, so the slice is not empty and its first frequency is the first
    point of the file. *)
Theorem X13_lower_handle_at_minimum_starts_at_first_point
        (net : Network) (f_first : float) (others : list float) (freq_max : float) :
  net_f net = f_first :: others ->
  is_finite (f_first / 1e9) = true ->
  Forall (fun d => is_nan d = false) (Net.distances net (f_first / 1e9)) ->
  exists k,
    Net.resolve_window net (f_first / 1e9) freq_max = Ok (0%nat, (k + 1)%nat) /\
    (k < List.length (net_f net))%nat /\
    hd_error (Cover.slice_ghz net 0 (k + 1)) = Some (f_first / 1e9).
Proof.
  intros Hf Hfin Hnan.
  assert (net_f net <> []) as Hne by (rewrite Hf; discriminate).
  destruct (NetFacts.resolve_window_ok net (f_first / 1e9) freq_max Hne)
    as (p & k & Hp & _ & Hw & _ & Hk).
  assert (p = 0%nat) as ->.
  { unfold Net.distances in Hp, Hnan. rewrite Hf in Hp, Hnan. simpl in Hp, Hnan.
    rewrite (ZeroFacts.sub_self _ Hfin) in Hp.
    change (abs 0) with 0 in Hp. change (is_nan 0) with false in Hp.
    rewrite ZeroFacts.argmin_from_keeps_zero in Hp; [congruence|].
    inversion Hnan as [|? ? _ Hrest]; subst.
    apply Forall_map. apply Forall_map in Hrest.
    eapply Forall_impl; [|exact Hrest]. intros x Hx.
    now apply ZeroFacts.zero_leb_abs. }
  exists k. split; [exact Hw|]. split; [exact Hk|].
  unfold Cover.slice_ghz, slice. rewrite Hf. simpl.
  replace (k + 1 - 0)%nat with (S k) by lia. reflexivity.
Qed.

Lemma X13_lower_handle_at_minimum_starts_at_first_point_witness :
  exists k,
    Net.resolve_window Samples.two_port (1e9 / 1e9) 2 = Ok (0%nat, (k + 1)%nat) /\
    (k < List.length (net_f Samples.two_port))%nat /\
    hd_error (Cover.slice_ghz Samples.two_port 0 (k + 1)) = Some (1e9 / 1e9).
Proof.
  apply (X13_lower_handle_at_minimum_starts_at_first_point Samples.two_port 1e9 [2e9; 3e9] 2).
  - reflexivity.
  - reflexivity.
  - repeat constructor.
Defined.

(** X14.  Zero phase.  For a row whose two magnitude cells are finite, the
    imaginary parts of both samples are exactly [+0], and the third and
    fifth fields of its line are [0.000000]. *)
Theorem X14_imaginary_parts_are_written_as_zero (cells : list float) :
  is_finite (nth 1 cells 0) = true -> is_finite (nth 2 cells 0) = true ->
  nth_error (Csv.printed_values cells) 2 = Some 0 /\
  nth_error (Csv.printed_values cells) 4 = Some 0 /\
  nth_error (Text.split (Csv.line_of_cells cells)) 2 = Some "0.000000" /\
  nth_error (Text.split (Csv.line_of_cells cells)) 4 = Some "0.000000".
Proof.
  intros H1 H2.
  assert (snd (cmul (nth 1 cells 0, 0) Csv.unit_phasor) = 0) as E1
      by (apply ZeroFacts.times_zero_plus_zero, H1).
  assert (snd (cmul (nth 2 cells 0, 0) Csv.unit_phasor) = 0) as E2
      by (apply ZeroFacts.times_zero_plus_zero, H2).
  unfold Csv.line_of_cells. rewrite CsvFacts.split_row_line.
  unfold Csv.printed_values. cbn [nth_error]. rewrite E1, E2.
  repeat split; reflexivity.
Qed.

Lemma X14_imaginary_parts_are_written_as_zero_witness :
  nth_error (Text.split (Csv.line_of_cells [1; 0.5; 0.25])) 2 = Some "0.000000".
Proof.
  apply (X14_imaginary_parts_are_written_as_zero [1; 0.5; 0.25]); reflexivity.
Defined.

(** X15.  The Touchstone block with the multiselect untouched, on a file
    that [rf.Network] accepts with at least one port and one frequency
    point: no error is shown, and exactly one chart is drawn, with the
    single trace [S11]: the magnitudes of entry [(0, 0)] over the resolved
    window, taken to dB when the radio is on dB, against the frequencies of
    the window in GHz. *)
Theorem X15_untouched_multiselect_plots_S11
        (np_log10 : float -> float) (np_cabs : complex -> float)
        (rf_Network : App.source -> result Network)
        (src : App.source) (w : App.Widgets) (net : Network) (f_first f_last : float) :
  rf_Network src = Ok net ->
  getitem (net_f net) 0 = Ok f_first -> getlast (net_f net) = Ok f_last ->
  (1 <= net_nports net)%nat ->
  App.touchstone_selection w = None ->
  exists idx_min k,
    Net.resolve_window net
      (fst (match App.freq_slider w with Some v => v | None => (f_first / 1e9, f_last / 1e9) end))
      (snd (match App.freq_slider w with Some v => v | None => (f_first / 1e9, f_last / 1e9) end))
    = Ok (idx_min, (k + 1)%nat) /\
    App.touchstone_section np_log10 np_cabs rf_Network src w =
      ([App.NetworkRead src;
        App.NetworkChart
          (mkFigure
             [let t := mkTrace "S11" (Cover.slice_ghz net idx_min (k + 1))
                                (Cover.entry_magnitudes np_cabs net idx_min (k + 1) 0 0) in
              match App.touchstone_scale w with
              | dB => Cover.to_dB np_log10 t
              | Linear => t
              end]
             "Frequency (GHz)"
             (match App.touchstone_scale w with
              | dB => "Magnitude |S| (dB)"
              | Linear => "Magnitude |S| (Linear)"
              end))],
       Ok tt).
Proof.
  intros Hnet Hfirst Hlast Hports Hsel.
  assert (net_f net <> []) as Hne.
  { intros E. rewrite E in Hfirst. discriminate. }
  set (window := match App.freq_slider w with
                 | Some v => v
                 | None => (f_first / 1e9, f_last / 1e9)
                 end).
  destruct (NetFacts.resolve_window_ok net (fst window) (snd window) Hne)
    as (p & k & _ & _ & Hw & _ & _).
  exists p, k. split; [exact Hw|].
  assert (getitem (Net.options (net_nports net)) 0 = Ok "S11") as Hopt.
  { destruct (net_nports net) as [|n]; [lia | reflexivity]. }
  assert (Net.extract_one np_log10 np_cabs net p (k + 1) (App.touchstone_scale w) "S11" =
          Ok (let t := mkTrace "S11" (Cover.slice_ghz net p (k + 1))
                               (Cover.entry_magnitudes np_cabs net p (k + 1) 0 0) in
              match App.touchstone_scale w with
              | dB => Cover.to_dB np_log10 t
              | Linear => t
              end)) as Hone.
  { apply (SelectorFacts.extract_one_digits np_log10 np_cabs net p (k + 1)
             (App.touchstone_scale w) "S"%char "1"%char "1"%char "" 0 0);
      try reflexivity;
      change (Net.digit_value "1"%char - 1)%Z with (1 - 1)%Z;
      rewrite NetFacts.axis_index_in_range by lia; reflexivity. }
  unfold App.touchstone_section.
  rewrite AppFacts.sbind_emit, Hnet, AppFacts.sbind_ok, Hfirst, AppFacts.sbind_ok,
    Hlast, AppFacts.sbind_ok, Hopt, AppFacts.sbind_ok, Hsel.
  fold window. unfold Net.extract. rewrite Hw. cbn [Py.bind fst snd mapM].
  rewrite Hone. cbn [Py.bind]. rewrite AppFacts.sbind_ok. reflexivity.
Qed.

Lemma X15_untouched_multiselect_plots_S11_witness :
  exists idx_min k,
    Net.resolve_window Samples.two_port
      (fst (match App.freq_slider (Samples.widgets true) with
            | Some v => v
            | None => (1e9 / 1e9, 3e9 / 1e9)
            end))
      (snd (match App.freq_slider (Samples.widgets true) with
            | Some v => v
            | None => (1e9 / 1e9, 3e9 / 1e9)
            end))
    = Ok (idx_min, (k + 1)%nat) /\
    App.touchstone_section Samples.log10_double Samples.cabs_naive Samples.parse_synthetic_only
                           (App.TempFile "") (Samples.widgets true) =
      ([App.NetworkRead (App.TempFile "");
        App.NetworkChart
          (mkFigure
             [let t := mkTrace "S11" (Cover.slice_ghz Samples.two_port idx_min (k + 1))
                                (Cover.entry_magnitudes Samples.cabs_naive Samples.two_port
                                   idx_min (k + 1) 0 0) in
              match App.touchstone_scale (Samples.widgets true) with
              | dB => Cover.to_dB Samples.log10_double t
              | Linear => t
              end]
             "Frequency (GHz)"
             (match App.touchstone_scale (Samples.widgets true) with
              | dB => "Magnitude |S| (dB)"
              | Linear => "Magnitude |S| (Linear)"
              end))],
       Ok tt).
Proof.
  apply (X15_untouched_multiselect_plots_S11 Samples.log10_double Samples.cabs_naive
           Samples.parse_synthetic_only (App.TempFile "") (Samples.widgets true)
           Samples.two_port 1e9 3e9);
    solve [reflexivity | simpl; lia].
Defined.

(** * The resolved window and the extracted traces (C4, C8) *)

Module WindowFacts.

Import Window.

(** The scan of [np.argmin] over the differences finds the nearest index. *)
Lemma nearest_of_first_minimum (net : Network) (freq : float) (p : nat) :
  Net.first_minimum (Net.distances net freq) p -> nearest_index (net_f net) freq p.
Proof.
  unfold Net.distances. intros (d & Hd & Hle & Hlt).
  rewrite nth_error_map in Hd.
  destruct (nth_error (net_f net) p) as [fp|] eqn:Hp; [|discriminate].
  injection Hd as <-. exists fp. split; [exact Hp|].
  intros q fq Hq.
  assert (nth_error (map (fun x => abs (x / 1e9 - freq)) (net_f net)) q =
          Some (abs (fq / 1e9 - freq))) as Hq' by (now rewrite nth_error_map, Hq).
  split; [exact (Hle q _ Hq') | exact (Hlt q _ Hq')].
Qed.

Lemma argmin_nearest (net : Network) (freq : float) :
  net_f net <> [] ->
  Forall (fun x => is_nan (abs (x / 1e9 - freq)) = false) (net_f net) ->
  exists p, Net.argmin (Net.distances net freq) = Ok p /\ nearest_index (net_f net) freq p.
Proof.
  intros Hf Hnan.
  destruct (NetFacts.argmin_first_minimum (Net.distances net freq)) as (p & Hp & Hmin).
  - unfold Net.distances. destruct (net_f net); [congruence | discriminate].
  - unfold Net.distances. now apply Forall_map.
  - exists p. split; [exact Hp | now apply nearest_of_first_minimum].
Qed.

Lemma mapM_ok_map {A B : Type} (f : A -> result B) (g : A -> B) (xs : list A) :
  Forall (fun x => f x = Ok (g x)) xs -> mapM f xs = Ok (map g xs).
Proof.
  induction 1 as [|x xs Hx _ IH]; simpl; [reflexivity|]. now rewrite Hx, IH.
Qed.

(** The port of a digit character, from the value [int] gives it. *)
Lemma port_of_digit_value (c : ascii) :
  Z.to_nat (Net.digit_value c - 1) = (nat_of_ascii c - 49)%nat.
Proof. unfold Net.digit_value, nat_of_ascii. lia. Qed.

Section Traces.

Variable np_log10 : float -> float.
Variable np_cabs : complex -> float.

(** The loop body on a selector in range. *)
Lemma extract_one_expected (net : Network) (idx_min idx_max : nat)
      (scale_option : scale) (param : string) :
  Net.selector_in_range (net_nports net) param = true ->
  Net.extract_one np_log10 np_cabs net idx_min idx_max scale_option param =
  Ok (expected_trace np_log10 np_cabs net scale_option idx_min idx_max param).
Proof.
  intros Hsel.
  destruct param as [|c0 [|c1 [|c2 rest]]]; try discriminate.
  simpl in Hsel.
  apply andb_true_iff in Hsel as [Hsel H2]. apply andb_true_iff in Hsel as [Hsel H1].
  apply andb_true_iff in Hsel as [Hd1 Hd2].
  apply andb_true_iff in H1 as [H1a H1b]. apply andb_true_iff in H2 as [H2a H2b].
  apply Z.leb_le in H1a, H1b, H2a, H2b.
  rewrite (SelectorFacts.extract_one_digits np_log10 np_cabs net idx_min idx_max scale_option
             c0 c1 c2 rest (Z.to_nat (Net.digit_value c1 - 1))
             (Z.to_nat (Net.digit_value c2 - 1)) Hd1 Hd2)
    by (apply NetFacts.axis_index_in_range; lia).
  unfold expected_trace, port_of. cbn [String.get].
  rewrite <- !port_of_digit_value. now destruct scale_option.
Qed.

Lemma extract_expected (net : Network) (freq_min freq_max : float)
      (selected : list string) (scale_option : scale) (idx_min idx_max : nat) :
  Net.resolve_window net freq_min freq_max = Ok (idx_min, idx_max) ->
  Forall (fun p => Net.selector_in_range (net_nports net) p = true) selected ->
  Net.extract np_log10 np_cabs net freq_min freq_max selected scale_option =
  Ok (map (expected_trace np_log10 np_cabs net scale_option idx_min idx_max) selected).
Proof.
  intros Hw Hsel. unfold Net.extract. rewrite Hw. cbn [Py.bind fst snd].
  apply mapM_ok_map. eapply Forall_impl; [|exact Hsel].
  intros p Hp. now apply extract_one_expected.
Qed.

(** What an expected trace holds, index by index. *)
Lemma expected_trace_points (net : Network) (scale_option : scale) (idx_min k : nat)
      (param : string) :
  Net.wf net -> (k < List.length (net_f net))%nat ->
  let t := expected_trace np_log10 np_cabs net scale_option idx_min (k + 1) param in
  trace_name t = param /\
  List.length (trace_x t) = (k + 1 - idx_min)%nat /\
  List.length (trace_y t) = (k + 1 - idx_min)%nat /\
  forall q, (idx_min <= q <= k)%nat ->
    exists fq m,
      nth_error (net_f net) q = Some fq /\ nth_error (net_s net) q = Some m /\
      nth_error (trace_x t) (q - idx_min) = Some (fq / 1e9) /\
      nth_error (trace_y t) (q - idx_min) =
        Some (scaled np_log10 scale_option
                (np_cabs (nth (port_of param 2) (nth (port_of param 1) m []) (0, 0)))).
Proof.
  intros [Hs _] Hk t. subst t. unfold expected_trace. cbn [trace_name trace_x trace_y].
  assert (k + 1 <= List.length (net_f net))%nat as Hf by lia.
  assert (k + 1 <= List.length (net_s net))%nat as Hs' by lia.
  split; [reflexivity|]. split; [|split].
  - now rewrite length_map, NetFacts.slice_length.
  - destruct scale_option; rewrite ?length_map; now apply NetFacts.slice_length.
  - intros q Hq.
    destruct (nth_error (net_f net) q) as [fq|] eqn:Hfq;
      [|apply nth_error_None in Hfq; lia].
    destruct (nth_error (net_s net) q) as [m|] eqn:Hm;
      [|apply nth_error_None in Hm; lia].
    exists fq, m. split; [reflexivity|]. split; [reflexivity|]. split.
    + rewrite nth_error_map, NetFacts.slice_nth_error, Hfq by lia. reflexivity.
    + unfold complex in *.
      destruct scale_option; cbn [scaled]; rewrite ?nth_error_map, NetFacts.slice_nth_error, Hm by lia;
        reflexivity.
Qed.

End Traces.

End WindowFacts.

(** C4, as stated, fails on the upper endpoint.  On two points at 1 and
    1.5 GHz the window [2, 1e17] has [freq_min <= freq_max]; both differences
    to [1e17] round to [1e17], so [freq_max] is matched at the lowest index,
    0, while [freq_min] resolves to index 1: the slice [1:1] is empty and
    does not include the matched upper endpoint.  The same happens for the
    reversed window [3, 1] on points at 1, 2 and 3 GHz. *)
Lemma C4_matched_upper_endpoint_left_out :
  (2 <=? 1e17) = true /\
  Net.argmin (Net.distances Samples.two_points 1e17) = Ok 0%nat /\
  Net.resolve_window Samples.two_points 2 1e17 = Ok (1%nat, 1%nat) /\
  Net.extract Samples.log10_double Samples.cabs_naive Samples.two_points 2 1e17 ["S11"] Linear =
    Ok [mkTrace "S11" [] []] /\
  Net.extract Samples.log10_double Samples.cabs_naive Samples.two_port 3 1 ["S21"] Linear =
    Ok [mkTrace "S21" [] []].
Proof. repeat split; vm_compute; reflexivity. Qed.

(** C4, amended.  For a network with the shape invariant and at least one
    frequency point, a window whose absolute differences to the frequency
    points are numbers (no NaN) and selectors in range: each endpoint
    resolves to the lowest index whose frequency in GHz has the least
    absolute difference to it; the slice runs from the index of [freq_min]
    up to and including the index [k] matched by [freq_max], so the matched
    upper endpoint is in the slice whenever the index of [freq_min] is not
    above [k], and the slice is empty otherwise; the extractor returns one
    trace per selector, in the order selected and named after it, every one
    of the same length, the number of indices from that of [freq_min] to
    [k], holding at each index of the slice the frequency in GHz and the
    magnitude, in the scale mode, of the tensor entry the selector names. *)
Theorem C4_extractor_window_and_order
        (np_log10 : float -> float) (np_cabs : complex -> float)
        (net : Network) (freq_min freq_max : float)
        (selected : list string) (scale_option : scale) :
  Net.wf net -> net_f net <> [] ->
  Forall (fun x => is_nan (abs (x / 1e9 - freq_min)) = false) (net_f net) ->
  Forall (fun x => is_nan (abs (x / 1e9 - freq_max)) = false) (net_f net) ->
  Forall (fun p => Net.selector_in_range (net_nports net) p = true) selected ->
  exists idx_min k,
    Net.resolve_window net freq_min freq_max = Ok (idx_min, (k + 1)%nat) /\
    Window.nearest_index (net_f net) freq_min idx_min /\
    Window.nearest_index (net_f net) freq_max k /\
    Net.extract np_log10 np_cabs net freq_min freq_max selected scale_option =
      Ok (map (Window.expected_trace np_log10 np_cabs net scale_option idx_min (k + 1))
              selected) /\
    forall param,
      let t := Window.expected_trace np_log10 np_cabs net scale_option idx_min (k + 1) param in
      trace_name t = param /\
      List.length (trace_x t) = (k + 1 - idx_min)%nat /\
      List.length (trace_y t) = (k + 1 - idx_min)%nat /\
      ((k < idx_min)%nat -> trace_x t = [] /\ trace_y t = []) /\
      forall q, (idx_min <= q <= k)%nat ->
        exists fq m,
          nth_error (net_f net) q = Some fq /\ nth_error (net_s net) q = Some m /\
          nth_error (trace_x t) (q - idx_min) = Some (fq / 1e9) /\
          nth_error (trace_y t) (q - idx_min) =
            Some (Window.scaled np_log10 scale_option
                    (np_cabs (nth (Window.port_of param 2)
                                  (nth (Window.port_of param 1) m []) (0, 0)))).
Proof.
  intros Hwf Hf Hmin Hmax Hsel.
  destruct (WindowFacts.argmin_nearest net freq_min Hf Hmin) as (p & Hp & Hpn).
  destruct (WindowFacts.argmin_nearest net freq_max Hf Hmax) as (k & Hk & Hkn).
  destruct (NetFacts.resolve_window_ok net freq_min freq_max Hf)
    as (p' & k' & Hp' & Hk' & Hw & _ & Hkb).
  assert (p' = p) as -> by congruence. assert (k' = k) as -> by congruence.
  exists p, k. split; [exact Hw|]. split; [exact Hpn|]. split; [exact Hkn|]. split.
  - now apply WindowFacts.extract_expected.
  - intros param t.
    destruct (WindowFacts.expected_trace_points np_log10 np_cabs net scale_option p k param
                Hwf Hkb) as (Hname & Hx & Hy & Hpts).
    fold t in Hname, Hx, Hy, Hpts.
    split; [exact Hname|]. split; [exact Hx|]. split; [exact Hy|]. split; [|exact Hpts].
    intros Hlt. split; apply length_zero_iff_nil; lia.
Qed.

Lemma C4_extractor_window_and_order_witness :
  Net.resolve_window Samples.two_port 1 3 = Ok (0%nat, 3%nat) /\
  Window.nearest_index (net_f Samples.two_port) 1 0 /\
  Window.nearest_index (net_f Samples.two_port) 3 2 /\
  Net.extract Samples.log10_double Samples.cabs_naive Samples.two_port 1 3
              ["S21"; "S11"] Linear =
    Ok [mkTrace "S21" [1; 2; 3] [3; 7; 11]; mkTrace "S11" [1; 2; 3] [1; 5; 9]].
Proof.
  destruct (C4_extractor_window_and_order Samples.log10_double Samples.cabs_naive
              Samples.two_port 1 3 ["S21"; "S11"] Linear)
    as (idx_min & k & Hw & Hmin & Hmax & Hex & _).
  - split; [reflexivity | repeat constructor].
  - discriminate.
  - repeat constructor.
  - repeat constructor.
  - repeat constructor.
  - assert (Net.resolve_window Samples.two_port 1 3 = Ok (0%nat, 3%nat)) as E
      by (vm_compute; reflexivity).
    rewrite E in Hw. injection Hw as <- Hk.
    assert (k = 2%nat) as -> by lia.
    split; [exact E|]. split; [exact Hmin|]. split; [exact Hmax|].
    rewrite Hex. vm_compute. reflexivity.
Defined.

(** C8, amended.  For a network with the shape invariant and at least one
    frequency point, and selectors in range, no window makes the extractor
    raise: each endpoint resolves to an index of the file, the lowest index
    of least absolute difference to it when none of the differences is NaN,
    and the traces returned, one per selector, have one value per index from
    that of [freq_min] to that of [freq_max], [k], inclusive.  They are
    empty exactly when [k] is below the index of [freq_min]; when both
    endpoints resolve to the same index they hold that one point, at its
    frequency in GHz. *)
Theorem C8_window_never_raises
        (np_log10 : float -> float) (np_cabs : complex -> float)
        (net : Network) (freq_min freq_max : float)
        (selected : list string) (scale_option : scale) :
  Net.wf net -> net_f net <> [] ->
  Forall (fun p => Net.selector_in_range (net_nports net) p = true) selected ->
  exists idx_min k,
    Net.resolve_window net freq_min freq_max = Ok (idx_min, (k + 1)%nat) /\
    (idx_min < List.length (net_f net))%nat /\ (k < List.length (net_f net))%nat /\
    (Forall (fun x => is_nan (abs (x / 1e9 - freq_min)) = false) (net_f net) ->
     Window.nearest_index (net_f net) freq_min idx_min) /\
    (Forall (fun x => is_nan (abs (x / 1e9 - freq_max)) = false) (net_f net) ->
     Window.nearest_index (net_f net) freq_max k) /\
    Net.extract np_log10 np_cabs net freq_min freq_max selected scale_option =
      Ok (map (Window.expected_trace np_log10 np_cabs net scale_option idx_min (k + 1))
              selected) /\
    forall param,
      let t := Window.expected_trace np_log10 np_cabs net scale_option idx_min (k + 1) param in
      List.length (trace_x t) = (k + 1 - idx_min)%nat /\
      List.length (trace_y t) = (k + 1 - idx_min)%nat /\
      (trace_x t = [] <-> (k < idx_min)%nat) /\
      (trace_y t = [] <-> (k < idx_min)%nat) /\
      (k = idx_min ->
       exists fk m,
         nth_error (net_f net) k = Some fk /\ nth_error (net_s net) k = Some m /\
         trace_x t = [fk / 1e9] /\
         trace_y t = [Window.scaled np_log10 scale_option
                        (np_cabs (nth (Window.port_of param 2)
                                      (nth (Window.port_of param 1) m []) (0, 0)))]).
Proof.
  intros Hwf Hf Hsel.
  destruct (NetFacts.resolve_window_ok net freq_min freq_max Hf)
    as (p & k & Hp & Hk & Hw & Hpb & Hkb).
  exists p, k. split; [exact Hw|]. split; [exact Hpb|]. split; [exact Hkb|].
  split; [|split; [|split]].
  - intros Hnan. destruct (WindowFacts.argmin_nearest net freq_min Hf Hnan) as (p' & Hp' & Hn).
    now replace p with p' by congruence.
  - intros Hnan. destruct (WindowFacts.argmin_nearest net freq_max Hf Hnan) as (k' & Hk' & Hn).
    now replace k with k' by congruence.
  - now apply WindowFacts.extract_expected.
  - intros param t.
    destruct (WindowFacts.expected_trace_points np_log10 np_cabs net scale_option p k param
                Hwf Hkb) as (_ & Hx & Hy & Hpts).
    fold t in Hx, Hy, Hpts.
    split; [exact Hx|]. split; [exact Hy|]. split; [|split].
    + rewrite <- length_zero_iff_nil. lia.
    + rewrite <- length_zero_iff_nil. lia.
    + intros ->. destruct (Hpts p) as (fk & m & Hfk & Hm & Hxk & Hyk); [lia|].
      exists fk, m. split; [exact Hfk|]. split; [exact Hm|].
      rewrite Nat.sub_diag in Hxk, Hyk.
      replace (p + 1 - p)%nat with 1%nat in Hx, Hy by lia.
      split.
      * destruct (trace_x t) as [|a [|b l]]; simpl in Hx, Hxk; try discriminate; congruence.
      * destruct (trace_y t) as [|a [|b l]]; simpl in Hy, Hyk; try discriminate; congruence.
Qed.

Lemma C8_window_never_raises_witness :
  Net.resolve_window Samples.two_port 10 20 = Ok (2%nat, 3%nat) /\
  Net.extract Samples.log10_double Samples.cabs_naive Samples.two_port 10 20 ["S21"] Linear =
    Ok [mkTrace "S21" [3] [11]].
Proof.
  destruct (C8_window_never_raises Samples.log10_double Samples.cabs_naive
              Samples.two_port 10 20 ["S21"] Linear)
    as (idx_min & k & Hw & _ & _ & _ & _ & Hex & _).
  - split; [reflexivity | repeat constructor].
  - discriminate.
  - repeat constructor.
  - assert (Net.resolve_window Samples.two_port 10 20 = Ok (2%nat, 3%nat)) as E
      by (vm_compute; reflexivity).
    rewrite E in Hw. injection Hw as <- Hk.
    assert (k = 2%nat) as -> by lia.
    split; [exact E|]. rewrite Hex. vm_compute. reflexivity.
Defined.
